(** * Ollama API server: normalisation, chunked streaming, prompt assembly
      and the client cache of [api_server.py], as a shallow embedding.

    Python strings are modelled as [string], one [ascii] per code point in
    the range 0..255.  Python values that cross the boundary with the
    backend client are modelled by [PyVal], builtin values and instances of
    user-defined classes whose attribute reads and [str()] may raise;
    exceptions by [PyExc] and the error monad [Exc]. *)

From Stdlib Require Import Bool Arith ZArith List Lia.
From Stdlib Require Import Strings.Ascii Strings.String Numbers.DecimalString.
Import ListNotations.

Set Warnings "-register-all".

Open Scope list_scope.
Open Scope string_scope.
Open Scope nat_scope.

(* ================================================================= *)
(** ** Characters and string helpers *)

Definition chr (n : nat) : string := String (ascii_of_nat n) EmptyString.

(** The two characters a Rocq literal cannot carry conveniently. *)
Definition nl : string := chr 10.
Definition dq : string := chr 34.

(** [str.isspace] on one code point below 256: TAB..CR, FS..US, space,
    NEL (0x85) and NBSP (0xA0). *)
Definition isspace (c : ascii) : bool :=
  let n := nat_of_ascii c in
  ((9 <=? n) && (n <=? 13)) || ((28 <=? n) && (n <=? 32))
  || (n =? 133) || (n =? 160).

(** ["sep".join(parts)]. *)
Fixpoint join (sep : string) (parts : list string) : string :=
  match parts with
  | [] => EmptyString
  | [w] => w
  | w :: rest => w ++ sep ++ join sep rest
  end.

(** [s.split()] with no argument: runs of whitespace separate the words,
    leading and trailing whitespace produce no empty word.  [cur] is the
    word being scanned. *)
Fixpoint split_from (cur : string) (s : string) : list string :=
  match s with
  | EmptyString =>
      match cur with EmptyString => [] | _ => [cur] end
  | String c rest =>
      if isspace c then
        match cur with
        | EmptyString => split_from EmptyString rest
        | _ => cur :: split_from EmptyString rest
        end
      else split_from (cur ++ String c EmptyString) rest
  end.

Definition split (s : string) : list string := split_from EmptyString s.

(** [range(start, stop, step)] for a positive step, unrolled at most
    [fuel] times. *)
Fixpoint range_from (fuel start stop step : nat) : list nat :=
  match fuel with
  | O => []
  | S fuel' =>
      if start <? stop then start :: range_from fuel' (start + step) stop step
      else []
  end.

(** The loop header [range(0, len(words), chunk_size)]: [stop] iterations
    always suffice for a positive step. *)
Definition py_range (start stop step : nat) : list nat :=
  range_from stop start stop step.

(** [l[i:j]] for non-negative bounds; out-of-range bounds are clamped. *)
Definition slice {A : Type} (l : list A) (i j : nat) : list A :=
  firstn (j - i) (skipn i l).

(** Truthiness of a string. *)
Definition str_truthy (s : string) : bool :=
  match s with EmptyString => false | _ => true end.

(* ================================================================= *)
(** ** Python values, exceptions *)

(** An instance of [Exception]: its class name and its [str(e)]. *)
Record PyExc : Type := mkExc { exc_type : string; exc_msg : string }.

Inductive Exc (A : Type) : Type :=
| Ok (a : A)
| Raise (e : PyExc).
Arguments Ok {A} a.
Arguments Raise {A} e.

Definition bind {A B : Type} (m : Exc A) (f : A -> Exc B) : Exc B :=
  match m with
  | Ok a => f a
  | Raise e => Raise e
  end.

Notation "x <- m ;; k" := (bind m (fun x => k))
  (at level 61, m at next level, right associativity).

(** A user-defined class, by the module that defines it and its name. *)
Record PyClass : Type := mkClass { cls_module : string; cls_name : string }.

(** The values the backend client may hand back.  A float is carried by
    its [repr].  [PyInst cls base str_text repr_text attrs] is an instance
    of the user-defined class [cls]: [base] is the builtin value it extends
    when the class derives from [str], [bytes], [list], [tuple], [dict],
    [int] or [float], and [None] for a plain object; [str_text] and
    [repr_text] are what [str()] and [repr()] of it give or raise; [attrs]
    are its data attributes and properties, each with what reading it gives
    or raises.  Methods a class defines of its own, and overridden
    operators, are not modelled. *)
Inductive PyVal : Type :=
| PyNone
| PyBool (b : bool)
| PyInt (z : Z)
| PyFloat (text : string)
| PyStr (s : string)
| PyBytes (b : string)
| PyList (items : list PyVal)
| PyTuple (items : list PyVal)
| PyDict (kvs : list (string * PyVal))
| PyInst (cls : PyClass) (base : option PyVal)
         (str_text repr_text : Exc string)
         (attrs : list (string * Exc PyVal)).

(** Lookup in an insertion-ordered mapping with string keys. *)
Fixpoint assoc (k : string) (kvs : list (string * PyVal)) : option PyVal :=
  match kvs with
  | [] => None
  | (k', v) :: rest => if String.eqb k k' then Some v else assoc k rest
  end.

(** The same for the attribute table of an instance. *)
Fixpoint lookup {A : Type} (k : string) (l : list (string * A)) : option A :=
  match l with
  | [] => None
  | (k', a) :: rest => if String.eqb k k' then Some a else lookup k rest
  end.

(** The builtin value behind an instance; a plain object and every builtin
    value stand for themselves. *)
Fixpoint builtin_of (v : PyVal) : PyVal :=
  match v with
  | PyInst _ (Some b) _ _ _ => builtin_of b
  | _ => v
  end.

(** What reading the data attribute or property [name] of [v] gives;
    [None] when [v] has no such attribute. *)
Fixpoint read_attr (v : PyVal) (name : string) : option (Exc PyVal) :=
  match v with
  | PyInst _ base _ _ attrs =>
      match lookup name attrs with
      | Some r => Some r
      | None =>
          match base with
          | Some b => read_attr b name
          | None => None
          end
      end
  | _ => None
  end.

Definition Z_to_string (z : Z) : string := NilZero.string_of_int (Z.to_int z).

Definition hex_digit (n : nat) : string :=
  match n with
  | 0 => "0" | 1 => "1" | 2 => "2" | 3 => "3" | 4 => "4" | 5 => "5"
  | 6 => "6" | 7 => "7" | 8 => "8" | 9 => "9" | 10 => "a" | 11 => "b"
  | 12 => "c" | 13 => "d" | 14 => "e" | _ => "f"
  end.

Definition hex2 (n : nat) : string := hex_digit (n / 16) ++ hex_digit (n mod 16).

Fixpoint flat_map_chars (f : ascii -> string) (s : string) : string :=
  match s with
  | EmptyString => EmptyString
  | String c rest => f c ++ flat_map_chars f rest
  end.

Fixpoint contains_char (n : nat) (s : string) : bool :=
  match s with
  | EmptyString => false
  | String c rest => (nat_of_ascii c =? n) || contains_char n rest
  end.

(** [str.isprintable] on one code point below 256. *)
Definition isprintable (n : nat) : bool :=
  ((32 <=? n) && (n <=? 126)) || ((161 <=? n) && negb (n =? 173)).

(** [repr] of a [str]: single quotes unless the text has a single quote and
    no double quote. *)
Definition repr_char (quote : nat) (c : ascii) : string :=
  let n := nat_of_ascii c in
  if n =? 92 then chr 92 ++ chr 92
  else if n =? quote then chr 92 ++ chr quote
  else if n =? 10 then chr 92 ++ "n"
  else if n =? 13 then chr 92 ++ "r"
  else if n =? 9 then chr 92 ++ "t"
  else if isprintable n then String c EmptyString
  else chr 92 ++ "x" ++ hex2 n.

Definition repr_str (s : string) : string :=
  let quote := if contains_char 39 s && negb (contains_char 34 s) then 34 else 39 in
  chr quote ++ flat_map_chars (repr_char quote) s ++ chr quote.

(** [repr] of a [bytes]: the same quoting, every byte outside printable
    ASCII as an escape. *)
Definition repr_byte (quote : nat) (c : ascii) : string :=
  let n := nat_of_ascii c in
  if n =? 92 then chr 92 ++ chr 92
  else if n =? quote then chr 92 ++ chr quote
  else if n =? 10 then chr 92 ++ "n"
  else if n =? 13 then chr 92 ++ "r"
  else if n =? 9 then chr 92 ++ "t"
  else if (32 <=? n) && (n <=? 126) then String c EmptyString
  else chr 92 ++ "x" ++ hex2 n.

Definition repr_bytes (b : string) : string :=
  let quote := if contains_char 39 b && negb (contains_char 34 b) then 34 else 39 in
  "b" ++ chr quote ++ flat_map_chars (repr_byte quote) b ++ chr quote.

(** The text of [repr(v)], for a [v] whose [repr] does not raise. *)
Fixpoint py_repr (v : PyVal) : string :=
  match v with
  | PyNone => "None"
  | PyBool true => "True"
  | PyBool false => "False"
  | PyInt z => Z_to_string z
  | PyFloat text => text
  | PyStr s => repr_str s
  | PyBytes b => repr_bytes b
  | PyList items => "[" ++ join ", " (map py_repr items) ++ "]"
  | PyTuple items =>
      match items with
      | [x] => "(" ++ py_repr x ++ ",)"
      | _ => "(" ++ join ", " (map py_repr items) ++ ")"
      end
  | PyDict kvs =>
      "{" ++ join ", "
               (map (fun kv => match kv with
                               | (k, x) => repr_str k ++ ": " ++ py_repr x
                               end) kvs) ++ "}"
  | PyInst _ _ _ repr_text _ =>
      match repr_text with Ok text => text | Raise _ => EmptyString end
  end.

(** The text of [str(v)], for a [v] whose [str] does not raise. *)
Definition py_str (v : PyVal) : string :=
  match v with
  | PyStr s => s
  | PyInst _ _ str_text _ _ =>
      match str_text with Ok text => text | Raise _ => EmptyString end
  | _ => py_repr v
  end.

(** The exception [repr(v)] raises, if any: the first one met going
    through the elements in order. *)
Fixpoint repr_raises (v : PyVal) : option PyExc :=
  match v with
  | PyList items | PyTuple items =>
      (fix first (l : list PyVal) : option PyExc :=
         match l with
         | [] => None
         | x :: rest =>
             match repr_raises x with
             | Some e => Some e
             | None => first rest
             end
         end) items
  | PyDict kvs =>
      (fix first (l : list (string * PyVal)) : option PyExc :=
         match l with
         | [] => None
         | (_, x) :: rest =>
             match repr_raises x with
             | Some e => Some e
             | None => first rest
             end
         end) kvs
  | PyInst _ _ _ repr_text _ =>
      match repr_text with Ok _ => None | Raise e => Some e end
  | _ => None
  end.

(** [str(v)]. *)
Definition str_of (v : PyVal) : Exc string :=
  match v with
  | PyStr s => Ok s
  | PyInst _ _ str_text _ _ => str_text
  | _ =>
      match repr_raises v with
      | Some e => Raise e
      | None => Ok (py_str v)
      end
  end.

(** [type(v).__name__]. *)
Definition type_name (v : PyVal) : string :=
  match v with
  | PyNone => "NoneType"
  | PyBool _ => "bool"
  | PyInt _ => "int"
  | PyFloat _ => "float"
  | PyStr _ => "str"
  | PyBytes _ => "bytes"
  | PyList _ => "list"
  | PyTuple _ => "tuple"
  | PyDict _ => "dict"
  | PyInst cls _ _ _ _ => cls_name cls
  end.

(** [str(type(v))]. *)
Definition type_repr (v : PyVal) : string :=
  match v with
  | PyInst cls _ _ _ _ =>
      "<class '" ++ cls_module cls ++ "." ++ cls_name cls ++ "'>"
  | _ => "<class '" ++ type_name v ++ "'>"
  end.

Definition AttributeError (v : PyVal) (name : string) : PyExc :=
  mkExc "AttributeError"
        ("'" ++ type_name v ++ "' object has no attribute '" ++ name ++ "'").

Definition TypeError (msg : string) : PyExc := mkExc "TypeError" msg.
Definition IndexError (msg : string) : PyExc := mkExc "IndexError" msg.
Definition KeyError (key : string) : PyExc := mkExc "KeyError" (repr_str key).

(** [isinstance(v, str)], [isinstance(v, dict)], [isinstance(v, list)]:
    true of the builtin value and of an instance of a class deriving from
    it. *)
Definition is_str (v : PyVal) : bool :=
  match builtin_of v with PyStr _ => true | _ => false end.
Definition is_dict (v : PyVal) : bool :=
  match builtin_of v with PyDict _ => true | _ => false end.
Definition is_list (v : PyVal) : bool :=
  match builtin_of v with PyList _ => true | _ => false end.

(** [hasattr(v, name)], for a name no builtin type defines, as "content":
    false when the attribute is missing or reading it raises
    [AttributeError]; any other exception raised by reading it comes
    through. *)
Definition hasattr (v : PyVal) (name : string) : Exc bool :=
  match read_attr v name with
  | Some (Ok _) => Ok true
  | Some (Raise e) =>
      if String.eqb (exc_type e) "AttributeError" then Ok false else Raise e
  | None => Ok false
  end.

(** [v.name], for such a name. *)
Definition getattr (v : PyVal) (name : string) : Exc PyVal :=
  match read_attr v name with
  | Some r => r
  | None => Raise (AttributeError v name)
  end.

(** [x == key] for an element [x] and a string [key]. *)
Definition eq_str (key : string) (x : PyVal) : bool :=
  match builtin_of x with
  | PyStr s => String.eqb s key
  | _ => false
  end.

(** [key in v] for a string key. *)
Definition py_in (key : string) (v : PyVal) : Exc bool :=
  match builtin_of v with
  | PyDict kvs => Ok (match assoc key kvs with Some _ => true | None => false end)
  | PyList items | PyTuple items => Ok (existsb (eq_str key) items)
  | PyStr s => Ok (match index 0 key s with Some _ => true | None => false end)
  | _ => Raise (TypeError ("argument of type '" ++ type_name v ++ "' is not iterable"))
  end.

(** [v[key]] for a string key and a mapping [v]. *)
Definition getitem_key (v : PyVal) (key : string) : Exc PyVal :=
  match builtin_of v with
  | PyDict kvs =>
      match assoc key kvs with
      | Some x => Ok x
      | None => Raise (KeyError key)
      end
  | _ => Raise (TypeError ("'" ++ type_name v ++ "' object is not subscriptable"))
  end.

(** [v[0]]. *)
Definition getitem_0 (v : PyVal) : Exc PyVal :=
  match builtin_of v with
  | PyList (x :: _) => Ok x
  | PyList [] => Raise (IndexError "list index out of range")
  | PyTuple (x :: _) => Ok x
  | PyTuple [] => Raise (IndexError "tuple index out of range")
  | PyStr (String c _) => Ok (PyStr (String c EmptyString))
  | PyStr EmptyString => Raise (IndexError "string index out of range")
  | PyBytes (String c _) => Ok (PyInt (Z.of_nat (nat_of_ascii c)))
  | PyBytes EmptyString => Raise (IndexError "index out of range")
  | PyDict _ => Raise (mkExc "KeyError" "0")
  | _ => Raise (TypeError ("'" ++ type_name v ++ "' object is not subscriptable"))
  end.

(** [len(v)]. *)
Definition py_len (v : PyVal) : Exc nat :=
  match builtin_of v with
  | PyList items => Ok (List.length items)
  | PyTuple items => Ok (List.length items)
  | PyDict kvs => Ok (List.length kvs)
  | PyStr s => Ok (String.length s)
  | PyBytes b => Ok (String.length b)
  | _ => Raise (TypeError ("object of type '" ++ type_name v ++ "' has no len()"))
  end.

(** Truth value of [v] in a condition. *)
Definition truthy (v : PyVal) : bool :=
  match builtin_of v with
  | PyNone => false
  | PyBool b => b
  | PyInt z => negb (Z.eqb z 0)
  | PyFloat text => negb (String.eqb text "0.0" || String.eqb text "-0.0")
  | PyStr s => str_truthy s
  | PyBytes b => str_truthy b
  | PyList items => match items with [] => false | _ => true end
  | PyTuple items => match items with [] => false | _ => true end
  | PyDict kvs => match kvs with [] => false | _ => true end
  | PyInst _ _ _ _ _ => true
  end.

(* ================================================================= *)
(** ** [json.dumps] with the default separators and [ensure_ascii] *)

Definition json_char (c : ascii) : string :=
  let n := nat_of_ascii c in
  if n =? 34 then chr 92 ++ dq
  else if n =? 92 then chr 92 ++ chr 92
  else if n =? 10 then chr 92 ++ "n"
  else if n =? 13 then chr 92 ++ "r"
  else if n =? 9 then chr 92 ++ "t"
  else if n =? 8 then chr 92 ++ "b"
  else if n =? 12 then chr 92 ++ "f"
  else if (32 <=? n) && (n <=? 126) then String c EmptyString
  else chr 92 ++ "u00" ++ hex2 n.

Definition json_string (s : string) : string :=
  dq ++ flat_map_chars json_char s ++ dq.

Fixpoint json_dumps (v : PyVal) : Exc string :=
  match v with
  | PyNone => Ok "null"
  | PyBool true => Ok "true"
  | PyBool false => Ok "false"
  | PyInt z => Ok (Z_to_string z)
  | PyFloat text =>
      Ok (if String.eqb text "inf" then "Infinity"
          else if String.eqb text "-inf" then "-Infinity"
          else if String.eqb text "nan" then "NaN"
          else text)
  | PyStr s => Ok (json_string s)
  | PyBytes _ => Raise (TypeError "Object of type bytes is not JSON serializable")
  | PyList items | PyTuple items =>
      parts <- (fix each (l : list PyVal) : Exc (list string) :=
                  match l with
                  | [] => Ok []
                  | x :: r => a <- json_dumps x ;; b <- each r ;; Ok (a :: b)
                  end) items ;;
      Ok ("[" ++ join ", " parts ++ "]")
  | PyDict kvs =>
      parts <- (fix each (l : list (string * PyVal)) : Exc (list string) :=
                  match l with
                  | [] => Ok []
                  | (k, x) :: r =>
                      a <- json_dumps x ;; b <- each r ;;
                      Ok ((json_string k ++ ": " ++ a) :: b)
                  end) kvs ;;
      Ok ("{" ++ join ", " parts ++ "}")
  | PyInst cls base _ _ _ =>
      match base with
      | Some (PyBytes _) | None =>
          Raise (TypeError ("Object of type " ++ cls_name cls
                              ++ " is not JSON serializable"))
      | Some b => json_dumps b
      end
  end.

(* ================================================================= *)
(** ** Request and response models *)

Record Message : Type := mkMessage { role : string; content : string }.

(** [temperature] is a float the server never reads; it is left out.
    [model] is taken as the string it holds. *)
Record ChatRequest : Type := mkRequest {
  req_messages : list Message;
  req_system : option string;
  req_model : string;
  req_stream : bool;
  req_max_tokens : option Z
}.

Record ChatResponse : Type := mkResponse {
  resp_id : string;
  resp_object : string;
  resp_created : Z;
  resp_model : string;
  resp_choices : list PyVal
}.

(* ================================================================= *)
(** ** Prompt assembly (lines 46-53 and 145-152) *)

(** [[msg.content for msg in messages if msg.role == "user"]]. *)
Definition user_messages (messages : list Message) : list string :=
  map content (filter (fun msg => String.eqb (role msg) "user") messages).

(** Truthiness of an [Optional[str]]. *)
Definition opt_truthy (o : option string) : bool :=
  match o with
  | Some s => str_truthy s
  | None => false
  end.

(** The prompt handed to [client.chat]; the source keeps it in the variable
    [user_message]. *)
Definition user_message (messages : list Message) (system : option string) : string :=
  let ums := user_messages messages in
  let um := match ums with [] => EmptyString | _ => last ums EmptyString end in
  match system with
  | Some sys =>
      if str_truthy sys && str_truthy um then
        sys ++ nl ++ nl ++ "User: " ++ um ++ nl ++ nl ++ "Assistant:"
      else if str_truthy sys then sys
      else um
  | None => um
  end.

(* ================================================================= *)
(** ** Response normalisation (lines 60-69 and 160-169) *)

Definition normalize_response (raw_response : PyVal) : Exc PyVal :=
  if is_str raw_response then Ok raw_response
  else
    has_content <- hasattr raw_response "content" ;;
    if has_content : bool then getattr raw_response "content"
    else
      has_key <- (if is_dict raw_response then py_in "content" raw_response
                  else Ok false) ;;
      if has_key : bool then getitem_key raw_response "content"
      else
        nonempty <- (if is_list raw_response
                     then n <- py_len raw_response ;; Ok (0 <? n)
                     else Ok false) ;;
        if nonempty : bool then
          if truthy raw_response
          then x <- getitem_0 raw_response ;; s <- str_of x ;; Ok (PyStr s)
          else Ok (PyStr "No response")
        else s <- str_of raw_response ;; Ok (PyStr s).


(** [bytes.isspace] on one byte: TAB..CR and space. *)
Definition isspace_byte (c : ascii) : bool :=
  let n := nat_of_ascii c in
  ((9 <=? n) && (n <=? 13)) || (n =? 32).

(** [b.split()] on a [bytes], scanning as [split_from] does. *)
Fixpoint split_bytes_from (cur : string) (b : string) : list string :=
  match b with
  | EmptyString =>
      match cur with EmptyString => [] | _ => [cur] end
  | String c rest =>
      if isspace_byte c then
        match cur with
        | EmptyString => split_bytes_from EmptyString rest
        | _ => cur :: split_bytes_from EmptyString rest
        end
      else split_bytes_from (cur ++ String c EmptyString) rest
  end.

Definition split_bytes (b : string) : list string :=
  split_bytes_from EmptyString b.

(** [response.split()] on whatever the normaliser produced.  A data
    attribute named [split] hides the method and cannot be called; without
    one, a [str] and a [bytes], or an instance deriving from them, split
    into words of their own kind; nothing else has the method. *)
Definition py_split (response : PyVal) : Exc (list PyVal) :=
  match read_attr response "split" with
  | Some (Ok x) =>
      Raise (TypeError ("'" ++ type_name x ++ "' object is not callable"))
  | Some (Raise e) => Raise e
  | None =>
      match builtin_of response with
      | PyStr s => Ok (map PyStr (split s))
      | PyBytes b => Ok (map PyBytes (split_bytes b))
      | _ => Raise (AttributeError response "split")
      end
  end.

(** The text of a [str] item of a join; nothing for any other item. *)
Definition str_value (x : PyVal) : option string :=
  match builtin_of x with
  | PyStr s => Some s
  | _ => None
  end.

(** The items of [sep.join(items)], checked from the left. *)
Fixpoint join_items (idx : nat) (items : list PyVal) : Exc (list string) :=
  match items with
  | [] => Ok []
  | x :: rest =>
      match str_value x with
      | Some s => parts <- join_items (S idx) rest ;; Ok (s :: parts)
      | None =>
          Raise (TypeError ("sequence item " ++ Z_to_string (Z.of_nat idx)
                              ++ ": expected str instance, "
                              ++ type_name x ++ " found"))
      end
  end.

(** [sep.join(items)]. *)
Definition py_join (sep : string) (items : list PyVal) : Exc string :=
  parts <- join_items 0 items ;; Ok (join sep parts).

(* ================================================================= *)
(** ** Stream chunks (lines 72-111) *)

Definition chunk_size : nat := 10.

(** The loop body up to [chunk_text], for words that are [str]. *)
Definition chunk_text (words : list string) (i : nat) : string :=
  let chunk_words := slice words i (i + chunk_size) in
  let text := join " " chunk_words in
  if i + chunk_size <? List.length words then text ++ " " else text.

(** The loop body up to [chunk_text], for the words [response.split()]
    gave, whatever their kind: the join raises on a word that is no
    [str]. *)
Definition chunk_text_of (words : list PyVal) (i : nat) : Exc string :=
  let chunk_words := slice words i (i + chunk_size) in
  text <- py_join " " chunk_words ;;
  Ok (if i + chunk_size <? List.length words then text ++ " " else text).

Definition chunk_data (model text : string) : PyVal :=
  PyDict [ ("id", PyStr "chatcmpl-ollama");
           ("object", PyStr "chat.completion.chunk");
           ("created", PyInt 1234567890);
           ("model", PyStr model);
           ("choices", PyList [ PyDict [ ("index", PyInt 0);
                                         ("delta", PyDict [ ("content", PyStr text) ]);
                                         ("finish_reason", PyNone) ] ]) ].

Definition final_chunk (model : string) : PyVal :=
  PyDict [ ("id", PyStr "chatcmpl-ollama");
           ("object", PyStr "chat.completion.chunk");
           ("created", PyInt 1234567890);
           ("model", PyStr model);
           ("choices", PyList [ PyDict [ ("index", PyInt 0);
                                         ("delta", PyDict []);
                                         ("finish_reason", PyStr "stop") ] ]) ].

Definition error_chunk (e : PyExc) : PyVal :=
  PyDict [ ("error", PyDict [ ("message", PyStr (exc_msg e));
                              ("type", PyStr "server_error") ]) ].

(** [f"data: {json.dumps(payload)}\n\n"]. *)
Definition sse (payload : PyVal) : Exc string :=
  s <- json_dumps payload ;; Ok ("data: " ++ s ++ nl ++ nl).

Definition done_frame : string := "data: [DONE]" ++ nl ++ nl.

(** A generator run: the frames yielded so far and how the body ended. *)
Definition Gen (A : Type) : Type := (list string * Exc A)%type.

Definition gret {A : Type} (a : A) : Gen A := ([], Ok a).

Definition gbind {A B : Type} (m : Gen A) (f : A -> Gen B) : Gen B :=
  match m with
  | (ys, Ok a) => let (zs, r) := f a in ((ys ++ zs)%list, r)
  | (ys, Raise e) => (ys, Raise e)
  end.

Definition yield (frame : string) : Gen unit := ([frame], Ok tt).

Definition lift {A : Type} (m : Exc A) : Gen A := ([], m).

Notation "x <~ m ;; k" := (gbind m (fun x => k))
  (at level 61, m at next level, right associativity).

Fixpoint for_each (l : list nat) (body : nat -> Gen unit) : Gen unit :=
  match l with
  | [] => gret tt
  | i :: rest => _ <~ body i ;; for_each rest body
  end.

(** The frames yielded when the generator ran. *)
Definition frames {A : Type} (g : Gen A) : list string := fst g.

(** Lines 72-111, from [words = response.split()] to the sentinel: the
    chunk streamer proper. *)
Definition emit_chunks (model : string) (response : PyVal) : Gen unit :=
  words <~ lift (py_split response) ;;
  _ <~ for_each (py_range 0 (List.length words) chunk_size)
         (fun i =>
            text <~ lift (chunk_text_of words i) ;;
            frame <~ lift (sse (chunk_data model text)) ;;
            yield frame) ;;
  frame <~ lift (sse (final_chunk model)) ;;
  _ <~ yield frame ;;
  yield done_frame.

(** The [chunk_text] values of the loop, in order, for canonical text
    [text]. *)
Definition content_deltas (text : string) : list string :=
  let words := split text in
  map (chunk_text words) (py_range 0 (List.length words) chunk_size).

(* ================================================================= *)
(** ** The client cache and the two request paths *)

(** A backend client object: the model it was built for and the number of
    constructor calls that preceded its own, which tells two handles apart. *)
Record Handle : Type := mkHandle { handle_model : string; handle_serial : nat }.

(** The module globals [chat_client] and [current_model]; [constructed]
    counts the [ChatOllama(...)] calls that returned. *)
Record Globals : Type := mkGlobals {
  chat_client : option Handle;
  current_model : option string;
  constructed : nat
}.

Definition initial_globals : Globals := mkGlobals None None 0.

Definition is_None {A : Type} (o : option A) : bool :=
  match o with None => true | Some _ => false end.

(** [current_model != model]. *)
Definition model_differs (cur : option string) (model : string) : bool :=
  match cur with
  | Some m => negb (String.eqb m model)
  | None => true
  end.

Inductive Reply : Type :=
| StreamingResponse (body : Gen unit)
| JsonResponse (r : ChatResponse)
| HTTPException (status_code : Z) (detail : string).

Section Server.

(** The external client library: [ChatOllama model] is [Some e] when the
    constructor raises [e]; [chat h prompt] is the outcome of
    [h.chat(prompt)].  [stdout line] is [Some e] when [print(line)]
    raises [e], as it does on a stream that cannot encode the line. *)
Variable ChatOllama : string -> option PyExc.
Variable chat : Handle -> string -> Exc PyVal.
Variable stdout : string -> option PyExc.

(** [print(line)]. *)
Definition print (line : string) : Exc unit :=
  match stdout line with
  | Some e => Raise e
  | None => Ok tt
  end.

(** Lines 34-39.  The result is whatever the global [chat_client] holds
    at the [return]. *)
Definition get_chat_client (model : string) (g : Globals)
  : Exc (option Handle) * Globals :=
  if is_None (chat_client g) || model_differs (current_model g) model then
    match ChatOllama model with
    | Some e => (Raise e, g)
    | None =>
        let h := mkHandle model (constructed g) in
        let g' := mkGlobals (Some h) (Some model) (S (constructed g)) in
        (Ok (chat_client g'), g')
    end
  else (Ok (chat_client g), g).

(** [client.chat(prompt)]. *)
Definition client_chat (client : option Handle) (prompt : string) : Exc PyVal :=
  match client with
  | Some h => chat h prompt
  | None => Raise (AttributeError PyNone "chat")
  end.

(** The [try] block of [generate_stream_response], lines 43-111. *)
Definition stream_try (messages : list Message) (system : option string)
           (model : string) (g : Globals) : Gen unit * Globals :=
  let (acquired, g') := get_chat_client model g in
  (client <~ lift acquired ;;
   raw_response <~ lift (client_chat client (user_message messages system)) ;;
   response <~ lift (normalize_response raw_response) ;;
   emit_chunks model response,
   g').

(** Lines 41-120: the [try] block, and on an exception the handler's one
    frame after whatever was yielded before. *)
Definition generate_stream_response (messages : list Message)
           (system : option string) (model : string) (g : Globals)
  : Gen unit * Globals :=
  let (body, g') := stream_try messages system model g in
  (match body with
   | (ys, Ok _) => (ys, Ok tt)
   | (ys, Raise e) =>
       _ <~ (ys, Ok tt) ;;
       frame <~ lift (sse (error_chunk e)) ;;
       yield frame
   end, g').

(** Lines 141-183: the non-streaming branch inside the handler's [try],
    the two debug lines included. *)
Definition complete (request : ChatRequest) (g : Globals)
  : Exc ChatResponse * Globals :=
  let (acquired, g') := get_chat_client (req_model request) g in
  (client <- acquired ;;
   raw_response <- client_chat client
                     (user_message (req_messages request) (req_system request)) ;;
   _ <- print ("Debug - Raw response type: " ++ type_repr raw_response) ;;
   shown <- str_of raw_response ;;
   _ <- print ("Debug - Raw response: " ++ shown) ;;
   response <- normalize_response raw_response ;;
   Ok (mkResponse "chatcmpl-ollama" "chat.completion" 1234567890
         (req_model request)
         [ PyDict [ ("index", PyInt 0);
                    ("message", PyDict [ ("role", PyStr "assistant");
                                         ("content", response) ]);
                    ("finish_reason", PyStr "stop") ] ]),
   g').

(** Lines 123-186.  With [stream] set the handler itself only wraps the
    generator, which runs when the transport consumes the response: the
    reply and the globals given here are those of the response served in
    full. *)
Definition chat_completions (request : ChatRequest) (g : Globals)
  : Reply * Globals :=
  if req_stream request then
    let (body, g') :=
      generate_stream_response (req_messages request) (req_system request)
        (req_model request) g in
    (StreamingResponse body, g')
  else
    let (r, g') := complete request g in
    (match r with
     | Ok resp => JsonResponse resp
     | Raise e => HTTPException 500 (exc_msg e)
     end, g').

End Server.

(* ================================================================= *)
(** ** Reading chunks back, and the vocabulary of the properties *)

(** The text of a frame whose payload serialises; empty otherwise. *)
Definition render (payload : PyVal) : string :=
  match sse payload with
  | Ok s => s
  | Raise _ => EmptyString
  end.

(** [payload[key]] when present. *)
Definition field (key : string) (payload : PyVal) : option PyVal :=
  match payload with
  | PyDict kvs => assoc key kvs
  | _ => None
  end.

(** [payload["choices"][0]]. *)
Definition choice0 (payload : PyVal) : option PyVal :=
  match field "choices" payload with
  | Some (PyList (c :: _)) => Some c
  | _ => None
  end.

(** [payload["choices"][0]["delta"]["content"]], the empty text when the
    delta carries none. *)
Definition delta_content (payload : PyVal) : string :=
  match choice0 payload with
  | Some c =>
      match field "delta" c with
      | Some d => match field "content" d with
                  | Some (PyStr s) => s
                  | _ => EmptyString
                  end
      | None => EmptyString
      end
  | None => EmptyString
  end.

(** The delta is present but has no [content]. *)
Definition delta_absent (payload : PyVal) : bool :=
  match choice0 payload with
  | Some c => match field "delta" c with
              | Some (PyDict []) => true
              | _ => false
              end
  | None => false
  end.

(** [payload["choices"][0]["finish_reason"] == "stop"]. *)
Definition is_stop_chunk (payload : PyVal) : bool :=
  match choice0 payload with
  | Some c => match field "finish_reason" c with
              | Some (PyStr s) => String.eqb s "stop"
              | _ => false
              end
  | None => false
  end.

(** The chunk payloads of a normal stream for [text], in order. *)
Definition stream_payloads (model text : string) : list PyVal :=
  (map (chunk_data model) (content_deltas text) ++ [final_chunk model])%list.

(** ["".join(parts)]. *)
Definition concat_all (parts : list string) : string :=
  fold_right append EmptyString parts.

Fixpoint nospace (s : string) : bool :=
  match s with
  | EmptyString => true
  | String c rest => negb (isspace c) && nospace rest
  end.

(** A word: non-empty and free of whitespace. *)
Definition is_word (w : string) : bool := str_truthy w && nospace w.

(** [ceil(n / d)]. *)
Definition ceil_div (n d : nat) : nat := (n + d - 1) / d.

(** How often [x] occurs in [l]. *)
Definition occurrences (x : string) (l : list string) : nat :=
  count_occ string_dec l x.

(** *** Prompt assembly as the specification words it *)

(** The content of the last message with role "user", scanning forward. *)
Definition last_user (messages : list Message) : option string :=
  fold_left (fun acc msg => if String.eqb (role msg) "user"
                            then Some (content msg) else acc)
            messages None.

Definition prompt_format (sys user : string) : string :=
  sys ++ nl ++ nl ++ "User: " ++ user ++ nl ++ nl ++ "Assistant:".

(** "If a system prompt is present and a user message exists, produce the
    formatted text; if only a system prompt is present, use it verbatim;
    otherwise use the user text verbatim." *)
Definition prompt_spec (messages : list Message) (system : option string) : string :=
  match system, last_user messages with
  | Some sys, Some user => prompt_format sys user
  | Some sys, None => sys
  | None, Some user => user
  | None, None => EmptyString
  end.

(** *** The normaliser's branches, read off a reply *)







(** *** Sample backends *)

Definition ctor_ok (model : string) : option PyExc := None.

Definition ctor_down (model : string) : option PyExc :=
  Some (mkExc "ConnectionError" "connection refused").

(** Replies with the prompt itself. *)
Definition chat_echo (h : Handle) (prompt : string) : Exc PyVal :=
  Ok (PyStr prompt).

(** Always fails. *)
Definition chat_down (h : Handle) (prompt : string) : Exc PyVal :=
  Raise (mkExc "RuntimeError" "model not loaded").

(** Replies with a mapping whose content is a number. *)
Definition chat_number (h : Handle) (prompt : string) : Exc PyVal :=
  Ok (PyDict [ ("content", PyInt 5) ]).

(** Replies with a mapping whose content is a [bytes]: the prompt, as
    its bytes. *)
Definition chat_bytes (h : Handle) (prompt : string) : Exc PyVal :=
  Ok (PyDict [ ("content", PyBytes prompt) ]).

Definition user_says (text : string) : Message := mkMessage "user" text.

(** A standard output that takes every line, and one that is closed. *)
Definition stdout_ok (line : string) : option PyExc := None.

Definition stdout_closed (line : string) : option PyExc :=
  Some (mkExc "ValueError" "I/O operation on closed file.").

Definition reply_class : PyClass := mkClass "chatlas" "Reply".





(** A plain object without "content" whose [str()] raises. *)
Definition broken_str : PyVal :=
  PyInst reply_class None (Raise (mkExc "RuntimeError" "no text"))
         (Ok "<Reply>") [].

(** *** Vocabulary of the further properties *)

(** What the module keeps true of its two globals: a stored client was
    built for the stored model name, by a constructor call already
    counted. *)
Definition cache_consistent (g : Globals) : bool :=
  match chat_client g with
  | Some h =>
      negb (model_differs (current_model g) (handle_model h))
      && (handle_serial h <? constructed g)
  | None => true
  end.


Fixpoint all_chars (p : ascii -> bool) (s : string) : bool :=
  match s with
  | EmptyString => true
  | String c rest => p c && all_chars p rest
  end.

(** Printable ASCII, space to tilde. *)
Definition ascii_printable (c : ascii) : bool :=
  (32 <=? nat_of_ascii c) && (nat_of_ascii c <=? 126).

(** A frame of the event stream: printable ASCII on one line, closed by
    the blank line. *)
Fixpoint well_framed (frame : string) : bool :=
  match frame with
  | EmptyString => false
  | String a rest =>
      match rest with
      | String b EmptyString =>
          (nat_of_ascii a =? 10) && (nat_of_ascii b =? 10)
      | _ => ascii_printable a && well_framed rest
      end
  end.

Definition not_user (msg : Message) : bool := negb (String.eqb (role msg) "user").

(** The globals after serving requests for [models], one after the
    other, whether or not each construction succeeded. *)
Definition after_requests (ChatOllama : string -> option PyExc)
           (models : list string) (g : Globals) : Globals :=
  fold_left (fun g model => snd (get_chat_client ChatOllama model g)) models g.

(** The text every chunk frame begins with, up to its model field, and up
    to and including it. *)
Definition chunk_head : string :=
  "data: {" ++ dq ++ "id" ++ dq ++ ": " ++ dq ++ "chatcmpl-ollama" ++ dq ++ ", "
  ++ dq ++ "object" ++ dq ++ ": " ++ dq ++ "chat.completion.chunk" ++ dq ++ ", "
  ++ dq ++ "created" ++ dq ++ ": 1234567890, ".

Definition model_head (model : string) : string :=
  chunk_head ++ dq ++ "model" ++ dq ++ ": " ++ json_string model ++ ", ".

(** How the text of a chunk frame and of an error frame begins. *)
Definition chunk_opening : string := "data: {" ++ dq ++ "id".

(* ================================================================= *)
(** ** Strings, [join] and [split] *)

Section StringFacts.

Lemma append_nil_r (s : string) : s ++ EmptyString = s.
Proof. induction s as [|c s IH]; simpl; [reflexivity | now rewrite IH]. Qed.

Lemma append_assoc (a b c : string) : (a ++ b) ++ c = a ++ (b ++ c).
Proof. induction a as [|x a IH]; simpl; [reflexivity | now rewrite IH]. Qed.

Lemma append_inv_head (s a b : string) : s ++ a = s ++ b -> a = b.
Proof.
  induction s as [|x s IH]; simpl; intros H; [exact H|].
  injection H as H. now apply IH.
Qed.

Lemma str_truthy_append_r (a b : string) :
  str_truthy b = true -> str_truthy (a ++ b) = true.
Proof. destruct a; simpl; auto. Qed.


Lemma concat_all_app (l1 l2 : list string) :
  concat_all (l1 ++ l2)%list = concat_all l1 ++ concat_all l2.
Proof.
  induction l1 as [|x l1 IH]; simpl; [reflexivity|].
  now rewrite IH, append_assoc.
Qed.

Lemma join_cons (sep w : string) (l : list string) :
  l <> [] -> join sep (w :: l) = w ++ sep ++ join sep l.
Proof. destruct l; [congruence | reflexivity]. Qed.

Lemma join_app (sep : string) (l1 l2 : list string) :
  l1 <> [] -> l2 <> [] ->
  join sep (l1 ++ l2)%list = join sep l1 ++ sep ++ join sep l2.
Proof.
  induction l1 as [|w l1 IH]; intros H1 H2; [congruence|].
  destruct l1 as [|w' l1].
  - simpl app. now rewrite join_cons.
  - change ((w :: w' :: l1) ++ l2)%list with (w :: ((w' :: l1) ++ l2))%list.
    rewrite join_cons by (simpl; congruence).
    rewrite IH by congruence.
    rewrite (join_cons sep w (w' :: l1)) by congruence.
    now rewrite !append_assoc.
Qed.

Lemma prefix_append (s t : string) : prefix s (s ++ t) = true.
Proof.
  induction s as [|c s IH]; [destruct t; reflexivity|]. simpl.
  destruct (ascii_dec c c); [exact IH | congruence].
Qed.

End StringFacts.

Section SplitFacts.

(** A whitespace-free stretch is absorbed into the word being scanned. *)
Lemma split_from_word (w cur s : string) :
  nospace w = true -> split_from cur (w ++ s) = split_from (cur ++ w) s.
Proof.
  revert cur. induction w as [|c w IH]; intros cur Hw; simpl.
  - now rewrite append_nil_r.
  - simpl in Hw. apply andb_prop in Hw as [Hc Hw].
    apply negb_true_iff in Hc. rewrite Hc.
    rewrite IH by assumption.
    now rewrite append_assoc.
Qed.

(** A separator closes a non-empty word. *)
Lemma split_from_sep (c : ascii) (cur s : string) :
  isspace c = true -> str_truthy cur = true ->
  split_from cur (String c s) = cur :: split_from EmptyString s.
Proof. intros Hc Hcur. simpl. rewrite Hc. destruct cur; [discriminate | reflexivity]. Qed.


Lemma split_join (ws : list string) :
  forallb is_word ws = true -> split (join " " ws) = ws.
Proof.
  unfold split. induction ws as [|w ws IH]; intros H; [reflexivity|].
  simpl in H. apply andb_prop in H as [Hw Hws].
  apply andb_prop in Hw as [Hne Hns].
  destruct ws as [|w' ws].
  - simpl join. rewrite <- (append_nil_r w) at 1.
    rewrite split_from_word by assumption. simpl.
    destruct w; [discriminate | reflexivity].
  - rewrite join_cons by congruence.
    rewrite split_from_word by assumption. simpl append at 1.
    change (" " ++ join " " (w' :: ws)) with (String " "%char (join " " (w' :: ws))).
    rewrite split_from_sep by (auto).
    now rewrite IH.
Qed.



End SplitFacts.

(* ================================================================= *)
(** ** The chunking loop *)


Section ChunkLoop.

Variable words : list string.
Local Abbreviation n := (List.length words).

Lemma range_from_step (fuel i : nat) :
  i < n ->
  range_from (S fuel) i n chunk_size = i :: range_from fuel (i + chunk_size) n chunk_size.
Proof. intros H. simpl. apply Nat.ltb_lt in H. now rewrite H. Qed.

Lemma range_from_done (fuel i : nat) :
  n <= i -> range_from fuel i n chunk_size = [].
Proof.
  intros H. destruct fuel; [reflexivity|]. simpl.
  assert (Hlt : (i <? n) = false) by (apply Nat.ltb_ge; exact H).
  now rewrite Hlt.
Qed.

Lemma ceil_div_step (k : nat) :
  0 < k -> ceil_div k chunk_size = S (ceil_div (k - chunk_size) chunk_size).
Proof.
  unfold ceil_div, chunk_size. intros Hk.
  destruct (Nat.le_gt_cases 10 k) as [Hge|Hlt].
  - replace (k + 10 - 1) with (k - 10 + 10 - 1 + 1 * 10) by lia.
    rewrite Nat.div_add by lia. lia.
  - replace (k - 10) with 0 by lia. simpl Nat.div at 2.
    assert (H1 : (k + 10 - 1) / 10 = 1).
    { symmetry. apply (Nat.div_unique _ 10 1 (k - 1)); lia. }
    rewrite H1. reflexivity.
Qed.

Lemma range_from_length (fuel i : nat) :
  n - i <= fuel ->
  List.length (range_from fuel i n chunk_size) = ceil_div (n - i) chunk_size.
Proof.
  revert i. induction fuel as [|fuel IH]; intros i Hf.
  - simpl. replace (n - i) with 0 by lia. reflexivity.
  - destruct (Nat.lt_ge_cases i n) as [Hlt|Hge].
    + rewrite range_from_step by assumption. simpl List.length.
      rewrite IH by (unfold chunk_size; lia).
      rewrite (ceil_div_step (n - i)) by lia.
      do 2 f_equal. unfold chunk_size. lia.
    + rewrite range_from_done by assumption.
      replace (n - i) with 0 by lia. reflexivity.
Qed.

Lemma slice_skipn (i : nat) :
  (slice words i (i + chunk_size) ++ skipn (i + chunk_size) words)%list = skipn i words.
Proof.
  unfold slice. replace (i + chunk_size - i) with chunk_size by lia.
  rewrite Nat.add_comm, <- skipn_skipn. apply firstn_skipn.
Qed.

Lemma slice_all (i : nat) :
  n <= i + chunk_size -> slice words i (i + chunk_size) = skipn i words.
Proof.
  intros H. rewrite <- (slice_skipn i) at 1.
  rewrite (@skipn_all2 _ (i + chunk_size) words) by exact H. now rewrite app_nil_r.
Qed.

Lemma slice_nonempty (i : nat) : i < n -> slice words i (i + chunk_size) <> [].
Proof.
  intros H Hnil. apply (f_equal (@List.length string)) in Hnil.
  unfold slice in Hnil. rewrite length_firstn, length_skipn in Hnil.
  unfold chunk_size in Hnil. simpl in Hnil. lia.
Qed.

Lemma skipn_nonempty (i : nat) : i < n -> skipn i words <> [].
Proof.
  intros H Hnil. apply (f_equal (@List.length string)) in Hnil.
  rewrite length_skipn in Hnil. simpl in Hnil. lia.
Qed.

(** The text of one chunk, by whether it is the last. *)
Lemma chunk_text_inner (i : nat) :
  i + chunk_size < n ->
  chunk_text words i = join " " (slice words i (i + chunk_size)) ++ " ".
Proof.
  intros H. unfold chunk_text. apply Nat.ltb_lt in H. now rewrite H.
Qed.

Lemma chunk_text_last (i : nat) :
  n <= i + chunk_size ->
  chunk_text words i = join " " (skipn i words).
Proof.
  intros H. unfold chunk_text.
  assert (Hlt : (i + chunk_size <? n) = false) by (apply Nat.ltb_ge; exact H).
  rewrite Hlt. now rewrite slice_all.
Qed.

(** The chunks from index [i] on concatenate to the remaining words joined
    by single spaces. *)
Lemma deltas_concat_from (fuel i : nat) :
  n - i <= fuel ->
  concat_all (map (chunk_text words) (range_from fuel i n chunk_size))
  = join " " (skipn i words).
Proof.
  revert i. induction fuel as [|fuel IH]; intros i Hf.
  - simpl. rewrite skipn_all2 by lia. reflexivity.
  - destruct (Nat.lt_ge_cases i n) as [Hlt|Hge].
    + rewrite range_from_step by assumption. simpl map. simpl concat_all.
      rewrite IH by (unfold chunk_size; lia).
      destruct (Nat.lt_ge_cases (i + chunk_size) n) as [Hin|Hlast].
      * rewrite chunk_text_inner by assumption.
        rewrite <- (slice_skipn i) at 1.
        rewrite join_app by (auto using slice_nonempty, skipn_nonempty).
        now rewrite append_assoc.
      * rewrite chunk_text_last by assumption.
        rewrite (@skipn_all2 _ (i + chunk_size) words) by lia. simpl.
        apply append_nil_r.
    + rewrite range_from_done by assumption. simpl.
      rewrite skipn_all2 by lia. reflexivity.
Qed.

Hypothesis words_ok : forallb is_word words = true.





End ChunkLoop.

(* ================================================================= *)
(** ** The generator *)

Section GeneratorFacts.

Lemma gbind_lift_ok {A B : Type} (a : A) (f : A -> Gen B) :
  gbind (lift (Ok a)) f = f a.
Proof. unfold gbind, lift. now destruct (f a). Qed.

Lemma gbind_lift_raise {A B : Type} (e : PyExc) (f : A -> Gen B) :
  gbind (lift (@Raise A e)) f = ([], Raise e).
Proof. reflexivity. Qed.

Lemma gbind_yielded {A B : Type} (ys : list string) (a : A) (f : A -> Gen B) :
  gbind (ys, Ok a) f = ((ys ++ fst (f a))%list, snd (f a)).
Proof. unfold gbind. now destruct (f a). Qed.

(** Every payload the generator builds serialises. *)
Lemma sse_chunk_data (model text : string) :
  sse (chunk_data model text) = Ok (render (chunk_data model text)).
Proof. reflexivity. Qed.

Lemma sse_final_chunk (model : string) :
  sse (final_chunk model) = Ok (render (final_chunk model)).
Proof. reflexivity. Qed.

Lemma sse_error_chunk (e : PyExc) :
  sse (error_chunk e) = Ok (render (error_chunk e)).
Proof. reflexivity. Qed.

Lemma slice_map {A B : Type} (f : A -> B) (l : list A) (i j : nat) :
  slice (map f l) i j = map f (slice l i j).
Proof. unfold slice. now rewrite skipn_map, firstn_map. Qed.

Lemma join_items_str (idx : nat) (ws : list string) :
  join_items idx (map PyStr ws) = Ok ws.
Proof.
  revert idx. induction ws as [|w ws IH]; intros idx; [reflexivity|].
  cbn [map join_items str_value builtin_of]. now rewrite IH.
Qed.

(** On words that are [str] the loop body computes [chunk_text]. *)
Lemma chunk_text_of_str (ws : list string) (i : nat) :
  chunk_text_of (map PyStr ws) i = Ok (chunk_text ws i).
Proof.
  unfold chunk_text_of, chunk_text, py_join.
  rewrite slice_map, join_items_str, length_map. reflexivity.
Qed.

Lemma for_each_chunks (model : string) (words : list string) (l : list nat) :
  for_each l (fun i =>
                text <~ lift (chunk_text_of (map PyStr words) i) ;;
                frame <~ lift (sse (chunk_data model text)) ;;
                yield frame)
  = (map (fun i => render (chunk_data model (chunk_text words i))) l, Ok tt).
Proof.
  induction l as [|i l IH]; [reflexivity|].
  cbn [for_each]. rewrite IH, chunk_text_of_str, gbind_lift_ok.
  rewrite sse_chunk_data, gbind_lift_ok.
  reflexivity.
Qed.

(** The chunk streamer on a text: the content chunks, the stop chunk, the
    sentinel, and a normal end. *)
Lemma emit_chunks_text (model text : string) :
  emit_chunks model (PyStr text)
  = ((map render (stream_payloads model text) ++ [done_frame])%list, Ok tt).
Proof.
  unfold emit_chunks.
  change (py_split (PyStr text)) with (Ok (A := list PyVal) (map PyStr (split text))).
  rewrite gbind_lift_ok, length_map.
  rewrite for_each_chunks, gbind_yielded.
  rewrite sse_final_chunk, gbind_lift_ok.
  unfold stream_payloads, content_deltas. simpl.
  rewrite !map_app, !map_map, <- app_assoc. reflexivity.
Qed.

(** What [response.split()] can give: the words of a text, or of a
    [bytes]. *)
Lemma py_split_words (response : PyVal) (words : list PyVal) :
  py_split response = Ok words ->
  (exists text, py_split response = py_split (PyStr text))
  \/ (exists b, words = map PyBytes (split_bytes b)).
Proof.
  unfold py_split.
  destruct (read_attr response "split") as [[x|e]|]; try discriminate.
  destruct (builtin_of response); try discriminate; intros H.
  - left. exists s. reflexivity.
  - right. exists b. now injection H as <-.
Qed.

(** The streamer either raises before its first frame or streams as it
    does for some text: a blank [bytes] streams as the empty text, any
    other [bytes] fails in the first join. *)
Lemma emit_chunks_shape (model : string) (response : PyVal) :
  (exists e, emit_chunks model response = ([], Raise e))
  \/ (exists text, emit_chunks model response = emit_chunks model (PyStr text)).
Proof.
  destruct (py_split response) as [words|e] eqn:Hsplit.
  - destruct (py_split_words response words Hsplit) as [[text Ht]|[b ->]].
    + right. exists text. unfold emit_chunks. now rewrite Ht.
    + destruct (split_bytes b) as [|w ws] eqn:Hb.
      * right. exists EmptyString. unfold emit_chunks. now rewrite Hsplit.
      * left. unfold emit_chunks. rewrite Hsplit, gbind_lift_ok.
        eexists. reflexivity.
  - left. exists e. unfold emit_chunks. now rewrite Hsplit.
Qed.

End GeneratorFacts.

(* ================================================================= *)
(** ** Frames are told apart by their text *)

Section FrameTexts.

Lemma prefix_distinguishes (p a b : string) :
  prefix p a = true -> prefix p b = false -> a <> b.
Proof. intros Ha Hb E. rewrite E, Hb in Ha. discriminate. Qed.

Lemma render_chunk_data_opening (model text : string) :
  prefix chunk_opening (render (chunk_data model text)) = true.
Proof. reflexivity. Qed.

Lemma render_final_chunk_opening (model : string) :
  prefix chunk_opening (render (final_chunk model)) = true.
Proof. reflexivity. Qed.


Lemma render_chunk_data_not_final (model text : string) :
  render (chunk_data model text) <> render (final_chunk model).
Proof.
  intros E. unfold render, sse in E.
  cbn [json_dumps bind chunk_data final_chunk join] in E.
  rewrite !append_assoc in E.
  repeat apply append_inv_head in E.
  vm_compute in E. discriminate E.
Qed.

End FrameTexts.

(* ================================================================= *)
(** ** The chunk streamer: round trip and grouping *)

Lemma content_deltas_concat (text : string) :
  concat_all (content_deltas text) = join " " (split text).
Proof.
  unfold content_deltas, py_range.
  rewrite deltas_concat_from by lia. reflexivity.
Qed.

Lemma delta_content_chunks (model : string) (deltas : list string) :
  map delta_content (map (chunk_data model) deltas) = deltas.
Proof.
  induction deltas as [|d deltas IH]; [reflexivity|].
  simpl map. now rewrite IH.
Qed.

Lemma emit_chunks_frames (model text : string) :
  frames (emit_chunks model (PyStr text))
  = (map render (map (chunk_data model) (content_deltas text))
       ++ [render (final_chunk model); done_frame])%list.
Proof.
  rewrite emit_chunks_text. unfold frames, stream_payloads. simpl fst.
  rewrite map_app, <- app_assoc. reflexivity.
Qed.


Lemma ceil_div_bounds (n : nat) :
  n <= chunk_size * ceil_div n chunk_size < n + chunk_size.
Proof.
  unfold ceil_div, chunk_size.
  pose proof (Nat.div_mod_eq (n + 10 - 1) 10) as Hdm.
  pose proof (Nat.mod_upper_bound (n + 10 - 1) 10 ltac:(lia)) as Hr.
  lia.
Qed.

(** C1, amended: the content chunks of the stream for a canonical text carry,
    in order, deltas whose concatenation is the text's words joined by single
    spaces; for a text that already is its words separated by single spaces
    this is the text itself, character for character. *)
Theorem deltas_concat_normalised (model text : string) :
  frames (emit_chunks model (PyStr text))
  = (map render (map (chunk_data model) (content_deltas text))
       ++ [render (final_chunk model); done_frame])%list
  /\ map delta_content (map (chunk_data model) (content_deltas text))
     = content_deltas text
  /\ concat_all (content_deltas text) = join " " (split text)
  /\ (forall ws : list string,
         forallb is_word ws = true ->
         concat_all (content_deltas (join " " ws)) = join " " ws).
Proof.
  split; [apply emit_chunks_frames|].
  split; [apply delta_content_chunks|].
  split; [apply content_deltas_concat|].
  intros ws Hws. rewrite content_deltas_concat.
  now rewrite split_join.
Qed.

Lemma deltas_concat_normalised_witness :
  forallb is_word ["alpha"; "beta"; "gamma"] = true
  /\ concat_all (content_deltas "alpha beta gamma") = "alpha beta gamma".
Proof.
  split; [reflexivity|].
  exact (proj2 (proj2 (proj2 (deltas_concat_normalised "phi4:latest" "alpha beta gamma")))
           ["alpha"; "beta"; "gamma"] eq_refl).
Defined.

(** C1 as stated fails: a run of two spaces comes back as one. *)
Lemma roundtrip_loses_whitespace :
  content_deltas "a  b" = ["a b"]
  /\ concat_all (map delta_content
                   (map (chunk_data "phi4:latest") (content_deltas "a  b")))
     <> "a  b".
Proof. split; [reflexivity | vm_compute; discriminate]. Qed.


(* ================================================================= *)
(** ** The two ends of a stream *)

Section Occurrences.

Lemma occurrences_app (x : string) (l1 l2 : list string) :
  occurrences x (l1 ++ l2)%list = occurrences x l1 + occurrences x l2.
Proof. apply count_occ_app. Qed.

Lemma occurrences_absent (x : string) (l : list string) :
  (forall y, In y l -> y <> x) -> occurrences x l = 0.
Proof.
  intros H. apply count_occ_not_In. intros Hin. exact (H x Hin eq_refl).
Qed.

Lemma occurrences_one (x : string) : occurrences x [x] = 1.
Proof. unfold occurrences. simpl. now destruct (string_dec x x). Qed.

Lemma occurrences_other (x y : string) : y <> x -> occurrences x [y] = 0.
Proof. intros H. unfold occurrences. simpl. now destruct (string_dec y x). Qed.

Lemma in_content_frames (model : string) (deltas : list string) (y : string) :
  In y (map render (map (chunk_data model) deltas)) ->
  exists d, y = render (chunk_data model d).
Proof.
  rewrite map_map. intros H. apply in_map_iff in H as [d [Hd _]].
  exists d. now symmetry.
Qed.

Lemma done_frame_not_chunk (model text : string) :
  render (chunk_data model text) <> done_frame.
Proof.
  apply (prefix_distinguishes chunk_opening);
    [apply render_chunk_data_opening | reflexivity].
Qed.

Lemma done_frame_not_final (model : string) :
  render (final_chunk model) <> done_frame.
Proof.
  apply (prefix_distinguishes chunk_opening);
    [apply render_final_chunk_opening | reflexivity].
Qed.

Lemma stop_chunks_of_contents (model : string) (deltas : list string) :
  filter is_stop_chunk (map (chunk_data model) deltas) = [].
Proof. induction deltas as [|d deltas IH]; [reflexivity | exact IH]. Qed.

(** A normal stream has one stop chunk and one sentinel, at its end. *)
Lemma terminal_pair_once (model : string) (deltas : list string) :
  let ys := (map render (map (chunk_data model) deltas)
               ++ [render (final_chunk model); done_frame])%list in
  occurrences (render (final_chunk model)) ys = 1
  /\ occurrences done_frame ys = 1.
Proof.
  intros ys. unfold ys.
  change [render (final_chunk model); done_frame]
    with ([render (final_chunk model)] ++ [done_frame])%list.
  rewrite !occurrences_app. split.
  - rewrite occurrences_absent, occurrences_one, occurrences_other.
    + reflexivity.
    + intros E. symmetry in E. revert E. apply done_frame_not_final.
    + intros y Hy. apply in_content_frames in Hy as [d ->].
      apply render_chunk_data_not_final.
  - rewrite occurrences_absent, occurrences_other, occurrences_one.
    + reflexivity.
    + apply done_frame_not_final.
    + intros y Hy. apply in_content_frames in Hy as [d ->].
      apply done_frame_not_chunk.
Qed.

End Occurrences.

Section StreamPaths.

Variable ChatOllama : string -> option PyExc.
Variable chat : Handle -> string -> Exc PyVal.

(** The [try] block either raises before its first frame or streams as the
    chunk streamer does on some text. *)
Lemma stream_try_cases (messages : list Message) (system : option string)
      (model : string) (g : Globals) :
  (exists e, fst (stream_try ChatOllama chat messages system model g)
             = ([], Raise e))
  \/ (exists h raw text,
         fst (get_chat_client ChatOllama model g) = Ok (Some h)
         /\ chat h (user_message messages system) = Ok raw
         /\ (exists response, normalize_response raw = Ok response)
         /\ fst (stream_try ChatOllama chat messages system model g)
            = emit_chunks model (PyStr text)).
Proof.
  unfold stream_try.
  destruct (get_chat_client ChatOllama model g) as [acquired g'].
  cbn [fst].
  destruct acquired as [client|e]; [|left; exists e; reflexivity].
  rewrite gbind_lift_ok.
  destruct client as [h|]; [|left; eexists; reflexivity].
  cbn [client_chat].
  destruct (chat h (user_message messages system)) as [raw|e] eqn:Hchat;
    [|left; exists e; reflexivity].
  rewrite gbind_lift_ok.
  destruct (normalize_response raw) as [response|e] eqn:Hnorm;
    [|left; exists e; reflexivity].
  rewrite gbind_lift_ok.
  destruct (emit_chunks_shape model response) as [[e He]|[text Ht]].
  - left. exists e. exact He.
  - right. exists h, raw, text. eauto.
Qed.

Lemma generate_stream_response_unfold (messages : list Message)
      (system : option string) (model : string) (g : Globals) :
  fst (generate_stream_response ChatOllama chat messages system model g)
  = match fst (stream_try ChatOllama chat messages system model g) with
    | (ys, Ok _) => (ys, Ok tt)
    | (ys, Raise e) => ((ys ++ [render (error_chunk e)])%list, Ok tt)
    end.
Proof.
  unfold generate_stream_response.
  destruct (stream_try ChatOllama chat messages system model g) as [[ys r] g'].
  cbn [fst]. destruct r as [u|e]; [reflexivity|].
  rewrite gbind_yielded, sse_error_chunk, gbind_lift_ok. reflexivity.
Qed.

(** The constructor failing on a cache miss ends the [try] block. *)
Lemma stream_try_constructor_raises (messages : list Message)
      (system : option string) (model : string) (g : Globals) (e : PyExc) :
  is_None (chat_client g) || model_differs (current_model g) model = true ->
  ChatOllama model = Some e ->
  fst (stream_try ChatOllama chat messages system model g) = ([], Raise e).
Proof.
  intros Hmiss Hctor. unfold stream_try, get_chat_client.
  rewrite Hmiss, Hctor. reflexivity.
Qed.

(** So does the backend call failing. *)
Lemma stream_try_chat_raises (messages : list Message)
      (system : option string) (model : string) (g : Globals)
      (h : Handle) (e : PyExc) :
  fst (get_chat_client ChatOllama model g) = Ok (Some h) ->
  chat h (user_message messages system) = Raise e ->
  fst (stream_try ChatOllama chat messages system model g) = ([], Raise e).
Proof.
  intros Hget Hchat. unfold stream_try.
  destruct (get_chat_client ChatOllama model g) as [acquired g'].
  cbn [fst] in Hget. subst acquired. cbn [fst].
  rewrite gbind_lift_ok. cbn [client_chat]. rewrite Hchat. reflexivity.
Qed.

End StreamPaths.

(** C4: when the [try] block does not raise, the stream is the content
    chunks of the normalised text followed by one chunk with
    [finish_reason] "stop" and an empty delta and then the one sentinel
    frame, with nothing after; the empty text gives just that pair. *)
Theorem stream_terminal_pair
        (ChatOllama : string -> option PyExc) (chat : Handle -> string -> Exc PyVal)
        (messages : list Message) (system : option string) (model : string)
        (g : Globals) (ys : list string) :
  fst (stream_try ChatOllama chat messages system model g) = (ys, Ok tt) ->
  fst (generate_stream_response ChatOllama chat messages system model g)
  = (ys, Ok tt)
  /\ (exists text,
         ys = (map render (map (chunk_data model) (content_deltas text))
                 ++ [render (final_chunk model); done_frame])%list
         /\ filter is_stop_chunk (stream_payloads model text) = [final_chunk model])
  /\ is_stop_chunk (final_chunk model) = true
  /\ delta_absent (final_chunk model) = true
  /\ occurrences (render (final_chunk model)) ys = 1
  /\ occurrences done_frame ys = 1
  /\ done_frame = "data: [DONE]" ++ nl ++ nl
  /\ frames (emit_chunks model (PyStr EmptyString))
     = [render (final_chunk model); done_frame].
Proof.
  intros Htry.
  split; [rewrite generate_stream_response_unfold, Htry; reflexivity|].
  destruct (stream_try_cases ChatOllama chat messages system model g)
    as [[e He]|[h [raw [text [_ [_ [_ Hemit]]]]]]];
    [rewrite He in Htry; discriminate|].
  rewrite Hemit, emit_chunks_text in Htry.
  injection Htry as Hys. symmetry in Hys.
  assert (Hshape : ys = (map render (map (chunk_data model) (content_deltas text))
                           ++ [render (final_chunk model); done_frame])%list).
  { rewrite Hys. unfold stream_payloads.
    rewrite map_app, <- app_assoc. reflexivity. }
  split.
  { exists text. split; [exact Hshape|].
    unfold stream_payloads. rewrite filter_app, stop_chunks_of_contents.
    reflexivity. }
  split; [reflexivity|]. split; [reflexivity|].
  rewrite Hshape.
  split; [apply terminal_pair_once|].
  split; [apply terminal_pair_once|].
  split; reflexivity.
Qed.

Lemma stream_terminal_pair_witness :
  occurrences done_frame
    (frames (emit_chunks "phi4:latest" (PyStr "alpha beta gamma"))) = 1.
Proof.
  exact (proj1 (proj2 (proj2 (proj2 (proj2 (proj2
           (stream_terminal_pair ctor_ok chat_echo
              [user_says "alpha beta gamma"] None "phi4:latest" initial_globals
              (frames (emit_chunks "phi4:latest" (PyStr "alpha beta gamma")))
              eq_refl))))))).
Defined.



(* ================================================================= *)
(** ** Response normalisation *)

Section NormaliserBranches.

Variable reply : PyVal.








End NormaliserBranches.





(* ================================================================= *)
(** ** Prompt assembly *)

Lemma last_user_from (messages : list Message) (acc : option string) :
  fold_left (fun acc msg => if String.eqb (role msg) "user"
                            then Some (content msg) else acc)
            messages acc
  = match user_messages messages with
    | [] => acc
    | ums => Some (last ums EmptyString)
    end.
Proof.
  revert acc. induction messages as [|m ms IH]; intros acc; [reflexivity|].
  simpl fold_left. rewrite IH. unfold user_messages. simpl filter.
  destruct (String.eqb (role m) "user"); [|reflexivity].
  simpl map.
  destruct (map content (filter (fun msg => String.eqb (role msg) "user") ms));
    reflexivity.
Qed.

(** The source's filter-then-last picks the last user content. *)
Lemma user_message_last_user (messages : list Message) :
  match user_messages messages with
  | [] => EmptyString
  | ums => last ums EmptyString
  end
  = match last_user messages with Some u => u | None => EmptyString end.
Proof.
  unfold last_user. rewrite last_user_from.
  destruct (user_messages messages); reflexivity.
Qed.

Lemma user_message_unfold (messages : list Message) (system : option string) :
  user_message messages system
  = match system with
    | Some sys =>
        if str_truthy sys
           && str_truthy (match last_user messages with
                          | Some u => u
                          | None => EmptyString
                          end)
        then prompt_format sys (match last_user messages with
                                | Some u => u
                                | None => EmptyString
                                end)
        else if str_truthy sys then sys
        else match last_user messages with Some u => u | None => EmptyString end
    | None => match last_user messages with Some u => u | None => EmptyString end
    end.
Proof.
  unfold user_message. cbv zeta. rewrite <- user_message_last_user.
  destruct (user_messages messages); reflexivity.
Qed.

(** C6, amended: the prompt is built from the content of the last message
    with role "user" (the empty text if there is none).  It is the formatted
    text when the system prompt and that content are both non-empty; the
    system prompt verbatim when it is non-empty and there is no user message
    or its content is empty; the user text verbatim when the system prompt
    is absent or empty.  This is what the specification words whenever an
    empty system prompt and an empty last user content are excluded. *)
Theorem prompt_assembly (messages : list Message) (system : option string) :
  (forall sys user,
      system = Some sys -> last_user messages = Some user ->
      str_truthy sys = true -> str_truthy user = true ->
      user_message messages system = prompt_format sys user)
  /\ (forall sys,
         system = Some sys -> str_truthy sys = true ->
         opt_truthy (last_user messages) = false ->
         user_message messages system = sys)
  /\ (opt_truthy system = false ->
      user_message messages system
      = match last_user messages with Some u => u | None => EmptyString end)
  /\ (system = None \/ opt_truthy system = true ->
      last_user messages = None \/ opt_truthy (last_user messages) = true ->
      user_message messages system = prompt_spec messages system).
Proof.
  rewrite user_message_unfold. unfold prompt_spec.
  split; [|split; [|split]].
  - intros sys user -> -> Hs Hu. now rewrite Hs, Hu.
  - intros sys -> Hs Hu. rewrite Hs.
    destruct (last_user messages) as [u|]; simpl in Hu |- *.
    + now rewrite Hu.
    + reflexivity.
  - intros Hs. destruct system as [sys|]; [|reflexivity].
    simpl in Hs. now rewrite Hs.
  - intros [->|Hs] [Hu|Hu].
    + rewrite Hu. reflexivity.
    + destruct (last_user messages); [reflexivity | discriminate].
    + destruct system as [sys|]; [|discriminate]. simpl in Hs.
      rewrite Hu, Hs. reflexivity.
    + destruct system as [sys|]; [|discriminate].
      destruct (last_user messages) as [u|]; [|discriminate].
      simpl in Hs, Hu. now rewrite Hs, Hu.
Qed.

Lemma prompt_assembly_witness :
  user_message [user_says "Hello"] (Some "Be brief.")
  = prompt_format "Be brief." "Hello"
  /\ user_message [mkMessage "assistant" "Hi"] (Some "Be brief.") = "Be brief."
  /\ user_message [user_says "Hello"] None = "Hello"
  /\ user_message [user_says "Hello"] (Some "Be brief.")
     = prompt_spec [user_says "Hello"] (Some "Be brief.").
Proof.
  split; [|split; [|split]].
  - exact (proj1 (prompt_assembly [user_says "Hello"] (Some "Be brief."))
             "Be brief." "Hello" eq_refl eq_refl eq_refl eq_refl).
  - exact (proj1 (proj2 (prompt_assembly [mkMessage "assistant" "Hi"]
                           (Some "Be brief.")))
             "Be brief." eq_refl eq_refl eq_refl).
  - exact (proj1 (proj2 (proj2 (prompt_assembly [user_says "Hello"] None)))
             eq_refl).
  - exact (proj2 (proj2 (proj2 (prompt_assembly [user_says "Hello"]
                                  (Some "Be brief."))))
             (or_intror eq_refl) (or_intror eq_refl)).
Defined.

(** C6 as stated fails: with a system prompt present and a user message
    whose content is empty, the code sends the system prompt alone. *)
Lemma prompt_empty_user_content :
  user_message [user_says EmptyString] (Some "Be brief.") = "Be brief."
  /\ prompt_spec [user_says EmptyString] (Some "Be brief.")
     = prompt_format "Be brief." EmptyString
  /\ user_message [user_says EmptyString] (Some "Be brief.")
     <> prompt_spec [user_says EmptyString] (Some "Be brief.").
Proof.
  split; [reflexivity|]. split; [reflexivity|].
  vm_compute. discriminate.
Qed.

(* ================================================================= *)
(** ** The client cache *)

Section ClientCache.

Variable ChatOllama : string -> option PyExc.

Lemma model_differs_false (cur : option string) (model : string) :
  model_differs cur model = false <-> cur = Some model.
Proof.
  destruct cur as [m|]; simpl; split; intros H; try discriminate.
  - apply negb_false_iff, String.eqb_eq in H. now subst.
  - injection H as ->. now rewrite String.eqb_refl.
Qed.

(** A call that returns leaves a handle stored under the requested name. *)
Lemma get_chat_client_stored (model : string) (g g1 : Globals)
      (client : option Handle) :
  get_chat_client ChatOllama model g = (Ok client, g1) ->
  client = chat_client g1
  /\ (exists h, chat_client g1 = Some h)
  /\ current_model g1 = Some model
  /\ (constructed g1 = constructed g \/ constructed g1 = S (constructed g)).
Proof.
  unfold get_chat_client.
  destruct (is_None (chat_client g) || model_differs (current_model g) model)
    eqn:Hmiss.
  - destruct (ChatOllama model) as [e|]; [discriminate|].
    intros H. injection H as <- <-. simpl. eauto 6.
  - intros H. injection H as <- <-.
    apply orb_false_iff in Hmiss as [Hsome Hsame].
    apply model_differs_false in Hsame.
    destruct (chat_client g) as [h|]; [|discriminate].
    eauto 6.
Qed.

End ClientCache.




(* ================================================================= *)
(** ** The non-streaming path and the framing fields *)

Section Completions.

Variable ChatOllama : string -> option PyExc.
Variable chat : Handle -> string -> Exc PyVal.
Variable stdout : string -> option PyExc.

(** What a returned envelope was built from. *)
Lemma complete_returns (request : ChatRequest) (g g' : Globals)
      (resp : ChatResponse) :
  complete ChatOllama chat stdout request g = (Ok resp, g') ->
  exists h raw response,
    get_chat_client ChatOllama (req_model request) g = (Ok (Some h), g')
    /\ chat h (user_message (req_messages request) (req_system request)) = Ok raw
    /\ normalize_response raw = Ok response
    /\ resp = mkResponse "chatcmpl-ollama" "chat.completion" 1234567890
                (req_model request)
                [ PyDict [ ("index", PyInt 0);
                           ("message", PyDict [ ("role", PyStr "assistant");
                                                ("content", response) ]);
                           ("finish_reason", PyStr "stop") ] ].
Proof.
  unfold complete.
  destruct (get_chat_client ChatOllama (req_model request) g)
    as [acquired g1].
  intros H. injection H as H <-.
  destruct acquired as [client|e]; [|discriminate].
  cbn [bind] in H.
  destruct client as [h|]; [|discriminate].
  cbn [client_chat] in H.
  destruct (chat h (user_message (req_messages request) (req_system request)))
    as [raw|e] eqn:Hchat; [|discriminate].
  cbn [bind] in H. unfold print in H.
  match type of H with context [stdout ?line] =>
    destruct (stdout line); [discriminate|]
  end.
  cbn [bind] in H.
  destruct (str_of raw) as [shown|e]; [|discriminate].
  cbn [bind] in H.
  match type of H with context [stdout ?line] =>
    destruct (stdout line); [discriminate|]
  end.
  cbn [bind] in H.
  destruct (normalize_response raw) as [response|e] eqn:Hnorm; [|discriminate].
  cbn [bind] in H. injection H as <-.
  exists h, raw, response. auto.
Qed.

Lemma chat_completions_json (request : ChatRequest) (g g' : Globals)
      (resp : ChatResponse) :
  chat_completions ChatOllama chat stdout request g = (JsonResponse resp, g') ->
  req_stream request = false
  /\ complete ChatOllama chat stdout request g = (Ok resp, g').
Proof.
  unfold chat_completions.
  destruct (req_stream request).
  - destruct (generate_stream_response ChatOllama chat (req_messages request)
                (req_system request) (req_model request) g).
    discriminate.
  - destruct (complete ChatOllama chat stdout request g) as [[r|e] g1];
      intros H; [|discriminate].
    injection H as <- <-. auto.
Qed.

End Completions.

(** C9: a request with [stream = false] that does not raise returns one
    envelope with exactly one choice, whose [finish_reason] is "stop" and
    whose message content is the normaliser's output on the backend's reply
    to the assembled prompt; for the single user message "Hello" and no
    system prompt that prompt is "Hello". *)
Theorem completion_envelope
        (ChatOllama : string -> option PyExc) (chat : Handle -> string -> Exc PyVal)
        (stdout : string -> option PyExc)
        (request : ChatRequest) (g g' : Globals) (resp : ChatResponse) :
  req_stream request = false ->
  chat_completions ChatOllama chat stdout request g = (JsonResponse resp, g') ->
  (exists h raw response,
      fst (get_chat_client ChatOllama (req_model request) g) = Ok (Some h)
      /\ chat h (user_message (req_messages request) (req_system request)) = Ok raw
      /\ normalize_response raw = Ok response
      /\ resp_choices resp
         = [ PyDict [ ("index", PyInt 0);
                      ("message", PyDict [ ("role", PyStr "assistant");
                                           ("content", response) ]);
                      ("finish_reason", PyStr "stop") ] ])
  /\ user_message [user_says "Hello"] None = "Hello".
Proof.
  intros _ H. split; [|reflexivity].
  apply chat_completions_json in H as [_ H].
  apply complete_returns in H as [h [raw [response [Hget [Hchat [Hnorm ->]]]]]].
  exists h, raw, response. rewrite Hget. auto.
Qed.

Lemma completion_envelope_witness :
  chat_completions ctor_ok chat_echo stdout_ok
    (mkRequest [user_says "Hello"] None "phi4:latest" false None)
    initial_globals
  = (JsonResponse
       (mkResponse "chatcmpl-ollama" "chat.completion" 1234567890
          "phi4:latest"
          [ PyDict [ ("index", PyInt 0);
                     ("message", PyDict [ ("role", PyStr "assistant");
                                          ("content", PyStr "Hello") ]);
                     ("finish_reason", PyStr "stop") ] ]),
     mkGlobals (Some (mkHandle "phi4:latest" 0)) (Some "phi4:latest") 1)
  /\ user_message [user_says "Hello"] None = "Hello".
Proof.
  split; [reflexivity|].
  exact (proj2 (completion_envelope ctor_ok chat_echo stdout_ok
                  (mkRequest [user_says "Hello"] None "phi4:latest" false None)
                  initial_globals
                  (mkGlobals (Some (mkHandle "phi4:latest" 0))
                             (Some "phi4:latest") 1)
                  (mkResponse "chatcmpl-ollama" "chat.completion" 1234567890
                     "phi4:latest"
                     [ PyDict [ ("index", PyInt 0);
                                ("message", PyDict [ ("role", PyStr "assistant");
                                                     ("content", PyStr "Hello") ]);
                                ("finish_reason", PyStr "stop") ] ])
                  eq_refl eq_refl)).
Defined.

Lemma chunk_head_chunk_data (model text : string) :
  prefix chunk_head (render (chunk_data model text)) = true.
Proof. reflexivity. Qed.

Lemma chunk_head_final_chunk (model : string) :
  prefix chunk_head (render (final_chunk model)) = true.
Proof. reflexivity. Qed.

(** The frames of a stream that is no error frame: the renderings of the
    chunk payloads, then the sentinel. *)
Lemma stream_frames_cases
      (ChatOllama : string -> option PyExc) (chat : Handle -> string -> Exc PyVal)
      (messages : list Message) (system : option string) (model : string)
      (g : Globals) :
  (exists e,
      frames (fst (generate_stream_response ChatOllama chat messages system
                     model g))
      = [render (error_chunk e)])
  \/ (exists text,
         frames (fst (generate_stream_response ChatOllama chat messages system
                        model g))
         = (map render (stream_payloads model text) ++ [done_frame])%list).
Proof.
  unfold frames. rewrite generate_stream_response_unfold.
  destruct (stream_try_cases ChatOllama chat messages system model g)
    as [[e ->]|[h [raw [text [_ [_ [_ ->]]]]]]].
  - left. exists e. reflexivity.
  - right. exists text. rewrite emit_chunks_text. reflexivity.
Qed.

(** C10: in every stream the generator produces, every chunk frame,
    content or terminal, is the rendering of a payload with
    [id = "chatcmpl-ollama"] and [created = 1234567890], and its text begins
    with exactly these fields; every non-streaming envelope carries the same
    two values. *)
Theorem framing_constants
        (ChatOllama : string -> option PyExc) (chat : Handle -> string -> Exc PyVal)
        (stdout : string -> option PyExc)
        (messages : list Message) (system : option string) (model : string)
        (g : Globals) :
  ((exists e,
       frames (fst (generate_stream_response ChatOllama chat messages system
                      model g))
       = [render (error_chunk e)])
   \/ (exists chunks,
          frames (fst (generate_stream_response ChatOllama chat messages system
                         model g))
          = (map render chunks ++ [done_frame])%list
          /\ Forall (fun chunk =>
                       field "id" chunk = Some (PyStr "chatcmpl-ollama")
                       /\ field "created" chunk = Some (PyInt 1234567890)
                       /\ prefix chunk_head (render chunk) = true)
                    chunks))
  /\ (forall request g0 g' resp,
         chat_completions ChatOllama chat stdout request g0
         = (JsonResponse resp, g') ->
         resp_id resp = "chatcmpl-ollama"
         /\ resp_created resp = 1234567890%Z).
Proof.
  split.
  - destruct (stream_frames_cases ChatOllama chat messages system model g)
      as [Herr|[text Hok]]; [left; exact Herr|].
    right. exists (stream_payloads model text). split; [exact Hok|].
    unfold stream_payloads. apply Forall_app. split.
    + apply Forall_forall. intros p Hp.
      apply in_map_iff in Hp as [d [<- _]].
      split; [reflexivity|]. split; [reflexivity|].
      apply chunk_head_chunk_data.
    + constructor; [|constructor].
      split; [reflexivity|]. split; [reflexivity|].
      apply chunk_head_final_chunk.
  - intros request g0 g' resp H.
    apply chat_completions_json in H as [_ H].
    apply complete_returns in H as [h [raw [response [_ [_ [_ ->]]]]]].
    split; reflexivity.
Qed.

Lemma framing_constants_witness :
  resp_id (mkResponse "chatcmpl-ollama" "chat.completion" 1234567890
             "phi4:latest"
             [ PyDict [ ("index", PyInt 0);
                        ("message", PyDict [ ("role", PyStr "assistant");
                                             ("content", PyStr "Hello") ]);
                        ("finish_reason", PyStr "stop") ] ])
  = "chatcmpl-ollama".
Proof.
  exact (proj1 (proj2 (framing_constants ctor_ok chat_echo stdout_ok
                         [user_says "Hello"] None "phi4:latest" initial_globals)
                  (mkRequest [user_says "Hello"] None "phi4:latest" false None)
                  initial_globals
                  (mkGlobals (Some (mkHandle "phi4:latest" 0))
                             (Some "phi4:latest") 1)
                  _ eq_refl)).
Defined.

(* ================================================================= *)
(** ** Sample runs *)

(** A reply whose content is a number reaches [response.split()] as an
    [int]; the stream is the one error frame. *)
Example stream_of_number_reply :
  fst (generate_stream_response ctor_ok chat_number
         [user_says "Hello"] None "phi4:latest" initial_globals)
  = ([render (error_chunk (AttributeError (PyInt 5) "split"))], Ok tt).
Proof. reflexivity. Qed.

(** The constructor failing on the first request. *)
Example stream_backend_unreachable :
  fst (generate_stream_response ctor_down chat_echo
         [user_says "Hello"] None "phi4:latest" initial_globals)
  = ([render (error_chunk (mkExc "ConnectionError" "connection refused"))],
     Ok tt).
Proof. reflexivity. Qed.

(** Twelve words: a padded chunk of ten, then the last two. *)
Example twelve_words :
  content_deltas "a b c d e f g h i j k l" = ["a b c d e f g h i j "; "k l"].
Proof. reflexivity. Qed.

(** A content of blank [bytes] splits into no word: the stream is the
    stop chunk and the sentinel, with no error frame. *)
Example stream_of_blank_bytes :
  fst (generate_stream_response ctor_ok chat_bytes
         [user_says "  "] None "phi4:latest" initial_globals)
  = ([render (final_chunk "phi4:latest"); done_frame], Ok tt).
Proof. reflexivity. Qed.

(** Any other [bytes] fails in the first join, before a frame is
    yielded. *)
Example stream_of_bytes :
  fst (generate_stream_response ctor_ok chat_bytes
         [user_says "hi there"] None "phi4:latest" initial_globals)
  = ([render (error_chunk
                (TypeError "sequence item 0: expected str instance, bytes found"))],
     Ok tt).
Proof. reflexivity. Qed.

(** A failing backend in the non-streaming path becomes a 500. *)
Example completion_backend_down :
  fst (chat_completions ctor_ok chat_down stdout_ok
         (mkRequest [user_says "Hello"] None "phi4:latest" false None)
         initial_globals)
  = HTTPException 500 "model not loaded".
Proof. reflexivity. Qed.

(* ================================================================= *)
(** ** Further properties of the chunking loop *)

Section ChunkPositions.

Variable words : list string.


End ChunkPositions.

Lemma content_deltas_length (text : string) :
  List.length (content_deltas text)
  = ceil_div (List.length (split text)) chunk_size.
Proof.
  unfold content_deltas, py_range. rewrite length_map.
  rewrite range_from_length by lia. now rewrite Nat.sub_0_r.
Qed.






Lemma split_from_nil (cur s : string) :
  split_from cur s = [] <-> cur = EmptyString /\ all_chars isspace s = true.
Proof.
  revert cur. induction s as [|c s IH]; intros cur; simpl.
  - destruct cur; split; intros H; auto; try discriminate.
    now destruct H.
  - destruct (isspace c) eqn:Hc; simpl.
    + destruct cur.
      * apply IH.
      * split; [discriminate | intros [H _]; discriminate].
    + rewrite IH. split; [|intros [_ H]; discriminate].
      intros [H _]. destruct cur; discriminate.
Qed.

(** A text has no content chunk exactly when it is empty or all
    whitespace; its stream is then the stop chunk and the sentinel. *)
Theorem no_chunks_iff_blank (model text : string) :
  (content_deltas text = [] <-> all_chars isspace text = true)
  /\ (all_chars isspace text = true ->
      frames (emit_chunks model (PyStr text))
      = [render (final_chunk model); done_frame]).
Proof.
  assert (Hiff : content_deltas text = [] <-> all_chars isspace text = true).
  { split.
    - intros H. apply (f_equal (@List.length string)) in H.
      rewrite content_deltas_length in H. cbn [List.length] in H.
      pose proof (ceil_div_bounds (List.length (split text))) as Hb.
      rewrite H in Hb.
      assert (Hnil : split text = [])
        by (destruct (split text); [reflexivity | cbn [List.length] in Hb; lia]).
      now apply split_from_nil in Hnil as [_ Hs].
    - intros H. unfold content_deltas.
      assert (Hnil : split text = []) by (apply split_from_nil; auto).
      rewrite Hnil. reflexivity. }
  split; [exact Hiff|].
  intros H. rewrite emit_chunks_frames.
  apply Hiff in H. now rewrite H.
Qed.

Lemma no_chunks_iff_blank_witness :
  frames (emit_chunks "phi4:latest" (PyStr "   "))
  = [render (final_chunk "phi4:latest"); done_frame].
Proof.
  exact (proj2 (no_chunks_iff_blank "phi4:latest" "   ") eq_refl).
Defined.





(* ================================================================= *)
(** ** Further properties of the client cache *)

Section CacheInvariant.

Variable ChatOllama : string -> option PyExc.

(** What one acquire call does to a consistent state. *)
Lemma acquire_step (model : string) (g g1 : Globals)
        (r : Exc (option Handle)) :
  cache_consistent g = true ->
  get_chat_client ChatOllama model g = (r, g1) ->
  cache_consistent g1 = true
  /\ (forall client, r = Ok client ->
        exists h, client = Some h /\ handle_model h = model
                  /\ handle_serial h < constructed g1).
Proof.
  intros Hg. unfold get_chat_client.
  destruct (is_None (chat_client g) || model_differs (current_model g) model)
    eqn:Hmiss.
  - destruct (ChatOllama model) as [e|]; intros H; injection H as <- <-.
    + split; [exact Hg|]. intros client Hc. discriminate.
    + split.
      { unfold cache_consistent. simpl. rewrite String.eqb_refl. simpl.
        apply Nat.ltb_lt. lia. }
      intros client Hc. injection Hc as <-. simpl.
      eexists. split; [reflexivity|]. simpl. split; [reflexivity | lia].
  - intros H. injection H as <- <-.
    split; [exact Hg|].
    intros client Hc. injection Hc as <-.
    apply orb_false_iff in Hmiss as [Hsome Hsame].
    apply model_differs_false in Hsame.
    unfold cache_consistent in Hg.
    destruct (chat_client g) as [h|]; [|discriminate].
    apply andb_prop in Hg as [Hm Hs].
    rewrite Hsame in Hm. simpl in Hm.
    apply negb_true_iff, negb_false_iff, String.eqb_eq in Hm.
    apply Nat.ltb_lt in Hs.
    exists h. auto.
Qed.

(** One call keeps the globals consistent, never lowers the constructor
    count, and hands back a client built for the requested model. *)
Theorem acquire_keeps_consistent (model : string) (g g1 : Globals)
        (r : Exc (option Handle)) :
  cache_consistent g = true ->
  get_chat_client ChatOllama model g = (r, g1) ->
  cache_consistent g1 = true
  /\ constructed g <= constructed g1
  /\ (forall client, r = Ok client ->
        exists h, client = Some h /\ handle_model h = model
                  /\ handle_serial h < constructed g1).
Proof.
  intros Hg H.
  destruct (acquire_step model g g1 r Hg H) as [Hcons Hbound].
  split; [exact Hcons|]. split; [|exact Hbound].
  unfold get_chat_client in H.
  destruct (is_None (chat_client g) || model_differs (current_model g) model).
  - destruct (ChatOllama model); injection H as _ <-; simpl; lia.
  - injection H as _ <-. lia.
Qed.

Lemma after_requests_consistent (models : list string) (g : Globals) :
  cache_consistent g = true ->
  cache_consistent (after_requests ChatOllama models g) = true.
Proof.
  revert g. induction models as [|m models IH]; intros g Hg; [exact Hg|].
  simpl. apply IH.
  destruct (get_chat_client ChatOllama m g) as [r g1] eqn:Hget.
  simpl. exact (proj1 (acquire_step m g g1 r Hg Hget)).
Qed.

(** Whatever requests were served since start-up, and whichever of their
    constructions failed, a call that returns hands back a client built for
    the model it was asked for. *)
Theorem acquired_client_matches_model (models : list string) (model : string)
        (client : option Handle) (g1 : Globals) :
  get_chat_client ChatOllama model
    (after_requests ChatOllama models initial_globals) = (Ok client, g1) ->
  exists h, client = Some h /\ handle_model h = model.
Proof.
  intros H.
  assert (Hc : cache_consistent (after_requests ChatOllama models initial_globals)
               = true)
    by (apply after_requests_consistent; reflexivity).
  destruct (acquire_step model _ g1 (Ok client) Hc H)
    as [_ Hret].
  destruct (Hret client eq_refl) as [h [Hh [Hm _]]].
  exists h. auto.
Qed.

(** A cache hit does not call the constructor: with a client stored under
    the requested name the call returns it, globals untouched, whatever the
    constructor would do. *)
Theorem cache_hit_ignores_constructor (model : string) (g : Globals)
        (h : Handle) :
  chat_client g = Some h -> current_model g = Some model ->
  get_chat_client ChatOllama model g = (Ok (Some h), g).
Proof.
  intros Hh Hm. unfold get_chat_client. rewrite Hh, Hm. simpl.
  rewrite String.eqb_refl. reflexivity.
Qed.

(** A call raises only on a cache miss whose construction fails, and then
    leaves both globals as they were: the client cached before stays. *)
Theorem failed_construction_leaves_cache (model : string) (g g1 : Globals)
        (e : PyExc) :
  get_chat_client ChatOllama model g = (Raise e, g1) ->
  g1 = g
  /\ ChatOllama model = Some e
  /\ (chat_client g = None \/ current_model g <> Some model).
Proof.
  unfold get_chat_client.
  destruct (is_None (chat_client g) || model_differs (current_model g) model)
    eqn:Hmiss; [|discriminate].
  destruct (ChatOllama model) as [e'|]; [|discriminate].
  intros H. injection H as <- <-.
  split; [reflexivity|]. split; [reflexivity|].
  apply orb_true_iff in Hmiss as [Hnone|Hdiff].
  - left. now destruct (chat_client g).
  - right. intros Hm. apply model_differs_false in Hm. congruence.
Qed.

(** The cache has one slot: after serving model [a], then another model
    [b], a request for [a] constructs again, and the client it returns is
    not the one handed out the first time. *)
Theorem switch_and_back (a b : string) (g g1 g2 g3 : Globals)
        (c1 c2 c3 : option Handle) :
  cache_consistent g = true -> String.eqb a b = false ->
  get_chat_client ChatOllama a g = (Ok c1, g1) ->
  get_chat_client ChatOllama b g1 = (Ok c2, g2) ->
  get_chat_client ChatOllama a g2 = (Ok c3, g3) ->
  constructed g3 = S (S (constructed g1)) /\ c3 <> c1.
Proof.
  intros Hg Hab H1 H2 H3. apply String.eqb_neq in Hab.
  destruct (acquire_step a g g1 (Ok c1) Hg H1)
    as [Hg1 Hret1].
  destruct (Hret1 c1 eq_refl) as [h1 [-> [Hm1 Hs1]]].
  destruct (get_chat_client_stored ChatOllama a g g1 (Some h1) H1)
    as [Hc1 [_ [Hcur1 _]]].
  assert (Hmiss1 : is_None (chat_client g1) || model_differs (current_model g1) b
                   = true).
  { rewrite Hcur1. simpl. apply orb_true_iff. right.
    apply negb_true_iff, String.eqb_neq. exact Hab. }
  unfold get_chat_client in H2. rewrite Hmiss1 in H2.
  destruct (ChatOllama b); [discriminate|].
  injection H2 as <- <-.
  unfold get_chat_client in H3. simpl in H3.
  assert (Hba : String.eqb b a = false)
    by (apply String.eqb_neq; congruence).
  rewrite Hba in H3. simpl in H3.
  destruct (ChatOllama a); [discriminate|].
  injection H3 as <- <-. simpl.
  split; [reflexivity|].
  intros E. injection E as E. subst h1. simpl in Hs1. lia.
Qed.

End CacheInvariant.

Lemma acquire_keeps_consistent_witness :
  cache_consistent
    (snd (get_chat_client ctor_ok "gemma3:latest"
            (mkGlobals (Some (mkHandle "phi4:latest" 0)) (Some "phi4:latest") 1)))
  = true.
Proof.
  exact (proj1 (acquire_keeps_consistent ctor_ok "gemma3:latest"
                  (mkGlobals (Some (mkHandle "phi4:latest" 0))
                             (Some "phi4:latest") 1)
                  _ _ eq_refl eq_refl)).
Defined.

Lemma acquired_client_matches_model_witness :
  exists h, Some (mkHandle "phi4:latest" 2) = Some h
            /\ handle_model h = "phi4:latest".
Proof.
  exact (acquired_client_matches_model ctor_ok
           ["phi4:latest"; "gemma3:latest"] "phi4:latest"
           (Some (mkHandle "phi4:latest" 2))
           (mkGlobals (Some (mkHandle "phi4:latest" 2)) (Some "phi4:latest") 3)
           eq_refl).
Defined.

Lemma cache_hit_ignores_constructor_witness :
  get_chat_client ctor_down "phi4:latest"
    (mkGlobals (Some (mkHandle "phi4:latest" 0)) (Some "phi4:latest") 1)
  = (Ok (Some (mkHandle "phi4:latest" 0)),
     mkGlobals (Some (mkHandle "phi4:latest" 0)) (Some "phi4:latest") 1).
Proof.
  exact (cache_hit_ignores_constructor ctor_down "phi4:latest"
           (mkGlobals (Some (mkHandle "phi4:latest" 0)) (Some "phi4:latest") 1)
           (mkHandle "phi4:latest" 0) eq_refl eq_refl).
Defined.

Lemma failed_construction_leaves_cache_witness :
  mkGlobals (Some (mkHandle "phi4:latest" 0)) (Some "phi4:latest") 1
  = mkGlobals (Some (mkHandle "phi4:latest" 0)) (Some "phi4:latest") 1
  /\ ctor_down "gemma3:latest"
     = Some (mkExc "ConnectionError" "connection refused").
Proof.
  destruct (failed_construction_leaves_cache ctor_down "gemma3:latest"
              (mkGlobals (Some (mkHandle "phi4:latest" 0)) (Some "phi4:latest") 1)
              (mkGlobals (Some (mkHandle "phi4:latest" 0)) (Some "phi4:latest") 1)
              (mkExc "ConnectionError" "connection refused") eq_refl)
    as [H1 [H2 _]].
  split; [exact H1 | exact H2].
Defined.

Lemma switch_and_back_witness :
  constructed
    (snd (get_chat_client ctor_ok "phi4:latest"
            (snd (get_chat_client ctor_ok "gemma3:latest"
                    (snd (get_chat_client ctor_ok "phi4:latest"
                            initial_globals))))))
  = 3.
Proof.
  exact (proj1 (switch_and_back ctor_ok "phi4:latest" "gemma3:latest"
                  initial_globals _ _ _ _ _ _ eq_refl
                  eq_refl eq_refl eq_refl eq_refl)).
Defined.

(* ================================================================= *)
(** ** Further properties of the two request paths *)

Section RequestPaths.

Variable ChatOllama : string -> option PyExc.
Variable chat : Handle -> string -> Exc PyVal.
Variable stdout : string -> option PyExc.


(** The globals after a stream was generated. *)
Lemma generate_stream_response_state (messages : list Message)
      (system : option string) (model : string) (g : Globals) :
  snd (generate_stream_response ChatOllama chat messages system model g)
  = snd (get_chat_client ChatOllama model g).
Proof.
  unfold generate_stream_response, stream_try.
  destruct (get_chat_client ChatOllama model g) as [acquired g1].
  destruct (client <~ lift acquired;;
            raw_response <~
              lift (client_chat chat client (user_message messages system));;
            response <~ lift (normalize_response raw_response);;
            emit_chunks model response) as [ys [u|e]];
    reflexivity.
Qed.

(** The body of the non-streaming [try], stage by stage. *)
Lemma complete_unfold (request : ChatRequest) (g : Globals) :
  fst (complete ChatOllama chat stdout request g)
  = (client <- fst (get_chat_client ChatOllama (req_model request) g) ;;
     raw_response <- client_chat chat client
                       (user_message (req_messages request)
                          (req_system request)) ;;
     _ <- print stdout ("Debug - Raw response type: " ++ type_repr raw_response) ;;
     shown <- str_of raw_response ;;
     _ <- print stdout ("Debug - Raw response: " ++ shown) ;;
     response <- normalize_response raw_response ;;
     Ok (mkResponse "chatcmpl-ollama" "chat.completion" 1234567890
           (req_model request)
           [ PyDict [ ("index", PyInt 0);
                      ("message", PyDict [ ("role", PyStr "assistant");
                                           ("content", response) ]);
                      ("finish_reason", PyStr "stop") ] ])).
Proof.
  unfold complete.
  destruct (get_chat_client ChatOllama (req_model request) g).
  reflexivity.
Qed.

Lemma chat_completions_unfold (request : ChatRequest) (g : Globals) :
  req_stream request = false ->
  fst (chat_completions ChatOllama chat stdout request g)
  = match fst (complete ChatOllama chat stdout request g) with
    | Ok resp => JsonResponse resp
    | Raise e => HTTPException 500 (exc_msg e)
    end.
Proof.
  intros Hs. unfold chat_completions. rewrite Hs.
  destruct (complete ChatOllama chat stdout request g). reflexivity.
Qed.

Lemma chat_completions_stream (request : ChatRequest) (g : Globals) :
  req_stream request = true ->
  fst (chat_completions ChatOllama chat stdout request g)
  = StreamingResponse
      (fst (generate_stream_response ChatOllama chat (req_messages request)
              (req_system request) (req_model request) g)).
Proof.
  intros Hs. unfold chat_completions. rewrite Hs.
  destruct (generate_stream_response ChatOllama chat (req_messages request)
              (req_system request) (req_model request) g).
  reflexivity.
Qed.

(** The stages both paths share, once each has succeeded. *)
Lemma complete_of_stages (request : ChatRequest) (g : Globals)
      (h : Handle) (raw response : PyVal) (shown : string) :
  fst (get_chat_client ChatOllama (req_model request) g) = Ok (Some h) ->
  chat h (user_message (req_messages request) (req_system request)) = Ok raw ->
  stdout ("Debug - Raw response type: " ++ type_repr raw) = None ->
  str_of raw = Ok shown ->
  stdout ("Debug - Raw response: " ++ shown) = None ->
  normalize_response raw = Ok response ->
  fst (complete ChatOllama chat stdout request g)
  = Ok (mkResponse "chatcmpl-ollama" "chat.completion" 1234567890
          (req_model request)
          [ PyDict [ ("index", PyInt 0);
                     ("message", PyDict [ ("role", PyStr "assistant");
                                          ("content", response) ]);
                     ("finish_reason", PyStr "stop") ] ]).
Proof.
  intros Hget Hchat Hp1 Hshown Hp2 Hnorm.
  rewrite complete_unfold, Hget. cbn [bind client_chat]. rewrite Hchat.
  cbn [bind]. unfold print. rewrite Hp1. cbn [bind]. rewrite Hshown.
  cbn [bind]. rewrite Hp2. cbn [bind]. rewrite Hnorm. reflexivity.
Qed.

Lemma stream_try_of_stages (messages : list Message) (system : option string)
      (model : string) (g : Globals) (h : Handle) (raw response : PyVal) :
  fst (get_chat_client ChatOllama model g) = Ok (Some h) ->
  chat h (user_message messages system) = Ok raw ->
  normalize_response raw = Ok response ->
  fst (stream_try ChatOllama chat messages system model g)
  = emit_chunks model response.
Proof.
  intros Hget Hchat Hnorm. unfold stream_try.
  destruct (get_chat_client ChatOllama model g) as [acquired g1].
  cbn [fst] in Hget |- *. subst acquired.
  rewrite gbind_lift_ok. cbn [client_chat]. rewrite Hchat, gbind_lift_ok.
  rewrite Hnorm, gbind_lift_ok. reflexivity.
Qed.

(** A normalised reply that cannot be split, because [response.split()]
    raises as it does for a number, [None], a list or a mapping, is
    returned as the message content by the non-streaming path (its two
    debug lines printed), and ends the streaming path with the single error
    frame of that exception. *)
Theorem non_text_content_paths (messages : list Message)
        (system : option string) (model : string) (max_tokens : option Z)
        (g : Globals) (h : Handle) (raw response : PyVal) (shown : string)
        (e : PyExc) :
  fst (get_chat_client ChatOllama model g) = Ok (Some h) ->
  chat h (user_message messages system) = Ok raw ->
  stdout ("Debug - Raw response type: " ++ type_repr raw) = None ->
  str_of raw = Ok shown ->
  stdout ("Debug - Raw response: " ++ shown) = None ->
  normalize_response raw = Ok response ->
  py_split response = Raise e ->
  fst (chat_completions ChatOllama chat stdout
         (mkRequest messages system model false max_tokens) g)
  = JsonResponse
      (mkResponse "chatcmpl-ollama" "chat.completion" 1234567890 model
         [ PyDict [ ("index", PyInt 0);
                    ("message", PyDict [ ("role", PyStr "assistant");
                                         ("content", response) ]);
                    ("finish_reason", PyStr "stop") ] ])
  /\ fst (chat_completions ChatOllama chat stdout
            (mkRequest messages system model true max_tokens) g)
     = StreamingResponse ([render (error_chunk e)], Ok tt).
Proof.
  intros Hget Hchat Hp1 Hshown Hp2 Hnorm Hsplit. split.
  - rewrite chat_completions_unfold by reflexivity.
    rewrite (complete_of_stages
               (mkRequest messages system model false max_tokens)
               g h raw response shown Hget Hchat Hp1 Hshown Hp2 Hnorm).
    reflexivity.
  - rewrite chat_completions_stream by reflexivity.
    cbn [req_messages req_system req_model].
    rewrite generate_stream_response_unfold.
    rewrite (stream_try_of_stages messages system model g h raw response
               Hget Hchat Hnorm).
    unfold emit_chunks. rewrite Hsplit. reflexivity.
Qed.

(** For one request and one state the two paths deliver the same text:
    when the non-streaming answer carries text [t], the streamed deltas are
    the chunks of [t]. *)
Theorem stream_matches_completion (messages : list Message)
        (system : option string) (model : string) (max_tokens : option Z)
        (g g' : Globals) (resp : ChatResponse) (t : string) :
  chat_completions ChatOllama chat stdout
    (mkRequest messages system model false max_tokens) g
  = (JsonResponse resp, g') ->
  resp_choices resp
  = [ PyDict [ ("index", PyInt 0);
               ("message", PyDict [ ("role", PyStr "assistant");
                                    ("content", PyStr t) ]);
               ("finish_reason", PyStr "stop") ] ] ->
  chat_completions ChatOllama chat stdout
    (mkRequest messages system model true max_tokens) g
  = (StreamingResponse
       ((map render (map (chunk_data model) (content_deltas t))
           ++ [render (final_chunk model); done_frame])%list, Ok tt),
     g').
Proof.
  intros Hjson Hchoices.
  pose proof (generate_stream_response_state messages system model g) as Hs2.
  apply chat_completions_json in Hjson as [_ Hc].
  apply complete_returns in Hc as [h [raw [response [Hget [Hchat [Hnorm ->]]]]]].
  cbn [resp_choices req_model req_messages req_system] in *.
  injection Hchoices as ->.
  assert (Hget' : fst (get_chat_client ChatOllama model g) = Ok (Some h))
    by now rewrite Hget.
  pose proof (stream_try_of_stages messages system model g h raw (PyStr t)
                Hget' Hchat Hnorm) as Ht.
  pose proof (generate_stream_response_unfold ChatOllama chat messages
                system model g) as Hu.
  rewrite Ht, emit_chunks_text in Hu.
  unfold chat_completions in *.
  cbn [req_stream req_messages req_system req_model] in *.
  destruct (generate_stream_response ChatOllama chat messages system model g)
    as [body g1].
  cbn [fst snd] in Hu, Hs2 |- *. rewrite Hu, Hs2, Hget. cbn [snd].
  unfold stream_payloads. rewrite map_app, <- app_assoc. reflexivity.
Qed.

(** In the non-streaming path every failure becomes an HTTP error with
    status 500 whose detail is the exception's message, and an HTTP error
    comes from nothing else: a raising constructor, a raising backend call,
    a debug line that cannot be printed, a reply whose [str()] raises, and
    a raising normalisation each give it. *)
Theorem completion_failure_is_500 (request : ChatRequest) (g : Globals) :
  req_stream request = false ->
  (forall e,
      fst (complete ChatOllama chat stdout request g) = Raise e ->
      fst (chat_completions ChatOllama chat stdout request g)
      = HTTPException 500 (exc_msg e))
  /\ (forall status detail,
         fst (chat_completions ChatOllama chat stdout request g)
         = HTTPException status detail ->
         status = 500%Z
         /\ exists e, fst (complete ChatOllama chat stdout request g) = Raise e
                      /\ detail = exc_msg e)
  /\ (forall e,
         fst (get_chat_client ChatOllama (req_model request) g) = Raise e ->
         fst (complete ChatOllama chat stdout request g) = Raise e)
  /\ (forall h raw e,
         fst (get_chat_client ChatOllama (req_model request) g) = Ok (Some h) ->
         chat h (user_message (req_messages request) (req_system request))
         = Ok raw ->
         stdout ("Debug - Raw response type: " ++ type_repr raw) = Some e
         \/ (stdout ("Debug - Raw response type: " ++ type_repr raw) = None
             /\ str_of raw = Raise e)
         \/ (stdout ("Debug - Raw response type: " ++ type_repr raw) = None
             /\ exists shown, str_of raw = Ok shown
                  /\ (stdout ("Debug - Raw response: " ++ shown) = Some e
                      \/ (stdout ("Debug - Raw response: " ++ shown) = None
                          /\ normalize_response raw = Raise e))) ->
         fst (complete ChatOllama chat stdout request g) = Raise e)
  /\ (forall h e,
         fst (get_chat_client ChatOllama (req_model request) g) = Ok (Some h) ->
         chat h (user_message (req_messages request) (req_system request))
         = Raise e ->
         fst (complete ChatOllama chat stdout request g) = Raise e).
Proof.
  intros Hs.
  split; [|split; [|split; [|split]]].
  - intros e He. rewrite chat_completions_unfold, He by exact Hs. reflexivity.
  - intros status detail H. rewrite chat_completions_unfold in H by exact Hs.
    destruct (fst (complete ChatOllama chat stdout request g)) as [r|e];
      [discriminate|].
    injection H as <- <-. split; [reflexivity|]. exists e. auto.
  - intros e He. rewrite complete_unfold, He. reflexivity.
  - intros h raw e Hget Hchat Hstage.
    rewrite complete_unfold, Hget. cbn [bind client_chat]. rewrite Hchat.
    cbn [bind]. unfold print.
    destruct Hstage as [Hp1|[[Hp1 Hstr]|[Hp1 [shown [Hstr [Hp2|[Hp2 Hn]]]]]]];
      rewrite Hp1; cbn [bind]; try reflexivity;
      rewrite Hstr; cbn [bind]; try reflexivity;
      rewrite Hp2; cbn [bind]; try reflexivity.
    rewrite Hn. reflexivity.
  - intros h e Hget Hchat.
    rewrite complete_unfold, Hget. cbn [bind client_chat]. rewrite Hchat.
    reflexivity.
Qed.

Lemma model_head_chunk_data (model text : string) :
  prefix (model_head model) (render (chunk_data model text)) = true.
Proof.
  assert (H : exists rest,
             render (chunk_data model text) = model_head model ++ rest).
  { eexists. unfold render, sse, model_head, chunk_head.
    cbn [json_dumps bind chunk_data join].
    rewrite !append_assoc. reflexivity. }
  destruct H as [rest ->]. apply prefix_append.
Qed.

Lemma model_head_final_chunk (model : string) :
  prefix (model_head model) (render (final_chunk model)) = true.
Proof.
  assert (H : exists rest, render (final_chunk model) = model_head model ++ rest).
  { eexists. unfold render, sse, model_head, chunk_head.
    cbn [json_dumps bind final_chunk join].
    rewrite !append_assoc. reflexivity. }
  destruct H as [rest ->]. apply prefix_append.
Qed.

(** In every stream the generator produces for a request, every chunk
    frame, content or terminal, is the rendering of a payload whose model
    field is the request's model name, and its text carries that name, JSON
    escaped, right after the [created] field; every envelope names the model
    of its request. *)
Theorem model_is_echoed (messages : list Message) (system : option string)
        (model : string) (g : Globals) :
  ((exists e,
       frames (fst (generate_stream_response ChatOllama chat messages system
                      model g))
       = [render (error_chunk e)])
   \/ (exists chunks,
          frames (fst (generate_stream_response ChatOllama chat messages system
                         model g))
          = (map render chunks ++ [done_frame])%list
          /\ Forall (fun chunk =>
                       field "model" chunk = Some (PyStr model)
                       /\ prefix (model_head model) (render chunk) = true)
                    chunks))
  /\ (forall request g0 g' resp,
         chat_completions ChatOllama chat stdout request g0
         = (JsonResponse resp, g') ->
         resp_model resp = req_model request).
Proof.
  split.
  - destruct (stream_frames_cases ChatOllama chat messages system model g)
      as [Herr|[text Hok]]; [left; exact Herr|].
    right. exists (stream_payloads model text). split; [exact Hok|].
    unfold stream_payloads. apply Forall_app. split.
    + apply Forall_forall. intros p Hp.
      apply in_map_iff in Hp as [d [<- _]].
      split; [reflexivity | apply model_head_chunk_data].
    + constructor; [|constructor].
      split; [reflexivity | apply model_head_final_chunk].
  - intros request g0 g' resp H.
    apply chat_completions_json in H as [_ H].
    apply complete_returns in H as [h [raw [response [_ [_ [_ ->]]]]]].
    reflexivity.
Qed.

End RequestPaths.

Lemma non_text_content_paths_witness :
  fst (chat_completions ctor_ok chat_number stdout_ok
         (mkRequest [user_says "Hello"] None "phi4:latest" true None)
         initial_globals)
  = StreamingResponse
      ([render (error_chunk (AttributeError (PyInt 5) "split"))], Ok tt).
Proof.
  exact (proj2 (non_text_content_paths ctor_ok chat_number stdout_ok
                  [user_says "Hello"] None "phi4:latest" None initial_globals
                  (mkHandle "phi4:latest" 0)
                  (PyDict [ ("content", PyInt 5) ]) (PyInt 5)
                  "{'content': 5}" (AttributeError (PyInt 5) "split")
                  eq_refl eq_refl eq_refl eq_refl eq_refl eq_refl eq_refl)).
Defined.

Lemma stream_matches_completion_witness :
  chat_completions ctor_ok chat_echo stdout_ok
    (mkRequest [user_says "alpha beta gamma"] None "phi4:latest" true None)
    initial_globals
  = (StreamingResponse
       ((map render (map (chunk_data "phi4:latest")
                       (content_deltas "alpha beta gamma"))
           ++ [render (final_chunk "phi4:latest"); done_frame])%list, Ok tt),
     mkGlobals (Some (mkHandle "phi4:latest" 0)) (Some "phi4:latest") 1).
Proof.
  exact (stream_matches_completion ctor_ok chat_echo stdout_ok
           [user_says "alpha beta gamma"] None "phi4:latest" None
           initial_globals
           (mkGlobals (Some (mkHandle "phi4:latest" 0)) (Some "phi4:latest") 1)
           (mkResponse "chatcmpl-ollama" "chat.completion" 1234567890
              "phi4:latest"
              [ PyDict [ ("index", PyInt 0);
                         ("message", PyDict [ ("role", PyStr "assistant");
                                              ("content",
                                               PyStr "alpha beta gamma") ]);
                         ("finish_reason", PyStr "stop") ] ])
           "alpha beta gamma" eq_refl eq_refl).
Defined.

Lemma completion_failure_is_500_witness :
  fst (chat_completions ctor_ok chat_echo stdout_closed
         (mkRequest [user_says "Hello"] None "phi4:latest" false None)
         initial_globals)
  = HTTPException 500 "I/O operation on closed file."
  /\ fst (chat_completions ctor_ok chat_down stdout_ok
            (mkRequest [user_says "Hello"] None "phi4:latest" false None)
            initial_globals)
     = HTTPException 500 "model not loaded".
Proof.
  split.
  - exact (proj1 (completion_failure_is_500 ctor_ok chat_echo stdout_closed
                    (mkRequest [user_says "Hello"] None "phi4:latest" false None)
                    initial_globals eq_refl)
             (mkExc "ValueError" "I/O operation on closed file.") eq_refl).
  - exact (proj1 (completion_failure_is_500 ctor_ok chat_down stdout_ok
                    (mkRequest [user_says "Hello"] None "phi4:latest" false None)
                    initial_globals eq_refl)
             (mkExc "RuntimeError" "model not loaded") eq_refl).
Defined.

Lemma model_is_echoed_witness :
  resp_model
    (mkResponse "chatcmpl-ollama" "chat.completion" 1234567890 "phi4:latest"
       [ PyDict [ ("index", PyInt 0);
                  ("message", PyDict [ ("role", PyStr "assistant");
                                       ("content", PyStr "Hello") ]);
                  ("finish_reason", PyStr "stop") ] ])
  = "phi4:latest".
Proof.
  exact (proj2 (model_is_echoed ctor_ok chat_echo stdout_ok
                  [user_says "Hello"] None "phi4:latest" initial_globals)
           (mkRequest [user_says "Hello"] None "phi4:latest" false None)
           initial_globals
           (mkGlobals (Some (mkHandle "phi4:latest" 0)) (Some "phi4:latest") 1)
           _ eq_refl).
Defined.

(* ================================================================= *)
(** ** Further properties of prompt assembly and normalisation *)

Lemma fold_not_user (after : list Message) (acc : option string) :
  forallb not_user after = true ->
  fold_left (fun acc msg => if String.eqb (role msg) "user"
                            then Some (content msg) else acc)
            after acc
  = acc.
Proof.
  revert acc. induction after as [|m after IH]; intros acc H; [reflexivity|].
  simpl in H. apply andb_prop in H as [Hm Hafter].
  unfold not_user in Hm. apply negb_true_iff in Hm.
  simpl. rewrite Hm. now apply IH.
Qed.

(** Only the last user message reaches the backend: earlier messages of
    any role, and later messages of other roles, do not change the
    prompt. *)
Theorem prompt_uses_last_user_only (before after : list Message) (m : Message)
        (system : option string) :
  role m = "user" -> forallb not_user after = true ->
  user_message (before ++ m :: after)%list system = user_message [m] system.
Proof.
  intros Hrole Hafter.
  assert (Hlast : last_user (before ++ m :: after)%list = Some (content m)).
  { unfold last_user. rewrite fold_left_app. simpl. rewrite Hrole. simpl.
    now apply fold_not_user. }
  assert (Hone : last_user [m] = Some (content m)).
  { unfold last_user. simpl. now rewrite Hrole. }
  now rewrite !user_message_unfold, Hlast, Hone.
Qed.

Lemma prompt_uses_last_user_only_witness :
  user_message [user_says "first"; mkMessage "assistant" "reply";
                user_says "second"; mkMessage "system" "note"] (Some "Be brief.")
  = user_message [user_says "second"] (Some "Be brief.").
Proof.
  exact (prompt_uses_last_user_only
           [user_says "first"; mkMessage "assistant" "reply"]
           [mkMessage "system" "note"] (user_says "second") (Some "Be brief.")
           eq_refl eq_refl).
Defined.

(** A non-empty system prompt always opens the prompt sent to the
    backend, whatever the messages. *)
Theorem prompt_opens_with_system (messages : list Message) (sys : string) :
  str_truthy sys = true ->
  prefix sys (user_message messages (Some sys)) = true.
Proof.
  intros Hs. rewrite user_message_unfold. rewrite Hs. cbn [andb].
  destruct (str_truthy
              match last_user messages with Some u => u | None => EmptyString end).
  - unfold prompt_format. apply prefix_append.
  - rewrite <- (append_nil_r sys) at 2. apply prefix_append.
Qed.

Lemma prompt_opens_with_system_witness :
  prefix "Be brief." (user_message [user_says "Hello"] (Some "Be brief.")) = true.
Proof.
  exact (prompt_opens_with_system [user_says "Hello"] "Be brief." eq_refl).
Defined.


(* ================================================================= *)
(** ** Frames keep to one line *)

Section Framing.

Lemma all_chars_append (p : ascii -> bool) (a b : string) :
  all_chars p (a ++ b) = all_chars p a && all_chars p b.
Proof.
  induction a as [|c a IH]; simpl; [reflexivity|].
  now rewrite IH, andb_assoc.
Qed.

Lemma json_char_printable (c : ascii) :
  all_chars ascii_printable (json_char c) = true.
Proof.
  destruct c as [[] [] [] [] [] [] [] []]; vm_compute; reflexivity.
Qed.

(** [json.dumps] escapes every control and non-ASCII character of a
    string. *)
Lemma json_string_printable (s : string) :
  all_chars ascii_printable (json_string s) = true.
Proof.
  unfold json_string. rewrite !all_chars_append.
  assert (H : all_chars ascii_printable (flat_map_chars json_char s) = true).
  { induction s as [|c s IH]; [reflexivity|].
    simpl. now rewrite all_chars_append, json_char_printable, IH. }
  now rewrite H.
Qed.

Lemma well_framed_long (s : string) :
  well_framed s = true -> exists a b rest, s = String a (String b rest).
Proof.
  destruct s as [|a [|b rest]]; simpl; intros H; try discriminate.
  - rewrite andb_false_r in H. discriminate.
  - eauto.
Qed.

Lemma well_framed_append (a rest : string) :
  all_chars ascii_printable a = true -> well_framed rest = true ->
  well_framed (a ++ rest) = true.
Proof.
  intros Ha Hrest. induction a as [|c a IH]; [exact Hrest|].
  simpl in Ha. apply andb_prop in Ha as [Hc Ha].
  specialize (IH Ha).
  destruct (well_framed_long _ IH) as [x [y [r E]]].
  simpl append. rewrite E in *.
  destruct r; simpl well_framed.
  - simpl in IH. now rewrite Hc.
  - now rewrite Hc.
Qed.

Ltac framed :=
  unfold render, sse;
  cbn [json_dumps bind chunk_data final_chunk error_chunk join];
  rewrite !append_assoc;
  repeat (apply well_framed_append;
          [first [apply json_string_printable | reflexivity]|]);
  reflexivity.

Lemma chunk_data_well_framed (model text : string) :
  well_framed (render (chunk_data model text)) = true.
Proof. framed. Qed.

Lemma final_chunk_well_framed (model : string) :
  well_framed (render (final_chunk model)) = true.
Proof. framed. Qed.

Lemma error_chunk_well_framed (e : PyExc) :
  well_framed (render (error_chunk e)) = true.
Proof. framed. Qed.

End Framing.

(** Every frame the generator yields is one line of printable ASCII closed
    by the blank line: no model name, reply text or exception message can
    break the event framing. *)
Theorem frames_well_framed
        (ChatOllama : string -> option PyExc) (chat : Handle -> string -> Exc PyVal)
        (messages : list Message) (system : option string) (model : string)
        (g : Globals) :
  Forall (fun frame => well_framed frame = true)
         (frames (fst (generate_stream_response ChatOllama chat messages
                         system model g))).
Proof.
  unfold frames. rewrite generate_stream_response_unfold.
  destruct (stream_try_cases ChatOllama chat messages system model g)
    as [[e ->]|[h [raw [text [_ [_ [_ ->]]]]]]].
  - cbn [fst app]. constructor; [apply error_chunk_well_framed | constructor].
  - rewrite emit_chunks_text. cbn [fst].
    unfold stream_payloads. rewrite map_app.
    apply Forall_app. split; [apply Forall_app; split|].
    + apply Forall_forall. intros f Hf.
      apply in_content_frames in Hf as [d ->].
      apply chunk_data_well_framed.
    + constructor; [apply final_chunk_well_framed | constructor].
    + constructor; [reflexivity | constructor].
Qed.
